(** * A shallow embedding of the [Graph] charting class

    The repository holds the class twice: [src/graph/Graph.ts], which draws
    on two canvases (the dual-surface variant below), and a second file with
    the same class on one canvas (the single-canvas variant).  Both are
    embedded here, method by method, with explicit state passing: a method
    that mutates [this] and returns it becomes a function from the chart
    state to the chart state, and a method that runs a generator takes fuel
    and returns an [option].

    Numbers.  The TypeScript [number] is embedded as an exact rational ([Q])
    wherever what is proved does not depend on rounding: which calls a
    method makes, on which surface, in which order and with which
    arguments.  Rounding and the non-finite values of IEEE-754 are outside
    that model; in particular [x / 0] is [0] there (the convention of
    [Qinv]) whereas JavaScript yields an infinity or NaN.  Two rationals are
    compared with [==], the equality of their values.  Where the value of a
    pixel is at stake, the arithmetic of the transform is embedded a second
    time on binary64 floating-point numbers ([Module Double]), which is the
    arithmetic the code runs. *)

From Stdlib Require Import QArith Lqa ZArith Lia String List Bool.
From Stdlib Require Floats.
Import ListNotations.

Local Open Scope Q_scope.

Abbreviation number := Q.

(** [a < b] as a boolean, the counterpart of [Qle_bool]. *)
Definition Qlt_bool (a b : number) : bool :=
  match a ?= b with
  | Lt => true
  | _ => false
  end.

(** ** The collaborators from [@apestaartje/geometry] *)

Module geometry.

Module point.
Record Point : Type := mkPoint { x : number; y : number }.
End point.

Module size.
Record Size : Type := mkSize { width : number; height : number }.
End size.

Module transform.
Import point.

(** Modelled from the spec: the class [Transform] of the package
    [@apestaartje/geometry] is not part of the repository.  The spec calls
    it an affine matrix (scale, translate and flip composed) that maps a
    logical point to a pixel point.  The matrix is kept as the six
    coefficients of a canvas transform, a point [(x, y)] being sent to
    [(a*x + c*y + e, b*x + d*y + f)]. *)
Record Transform : Type :=
  mkTransform { a : number; b : number; c : number; d : number;
                e : number; f : number }.

(** Modelled from the spec: [new Transform()] starts from the identity. *)
Definition new : Transform := mkTransform 1 0 0 1 0 0.

(** Modelled from the spec: [identity()] resets the matrix in place,
    whatever it held. *)
Definition identity (t : Transform) : Transform := mkTransform 1 0 0 1 0 0.

(** Modelled from the spec: [scale(sx, sy)] composes a scaling onto the
    current matrix (the points are scaled first, then mapped by what the
    matrix held). *)
Definition scale (sx sy : number) (t : Transform) : Transform :=
  mkTransform (a t * sx) (b t * sx) (c t * sy) (d t * sy) (e t) (f t).

(** Modelled from the spec: [translate(dx, dy)] composes a translation
    onto the current matrix. *)
Definition translate (dx dy : number) (t : Transform) : Transform :=
  mkTransform (a t) (b t) (c t) (d t)
              (e t + (a t * dx + c t * dy))
              (f t + (b t * dx + d t * dy)).

(** Modelled from the spec: [transformPoint(p)] applies the current
    matrix to a logical point and returns the pixel point. *)
Definition transformPoint (t : Transform) (p : Point) : Point :=
  mkPoint (x p * a t + y p * c t + e t)
          (x p * b t + y p * d t + f t).

(** The calls a [Transform] receives, as data, and their effect in the
    order of the list. *)
Inductive Call : Type :=
| Identity
| Scale (sx sy : number)
| Translate (dx dy : number).

Definition apply (t : Transform) (k : Call) : Transform :=
  match k with
  | Identity => identity t
  | Scale sx sy => scale sx sy t
  | Translate dx dy => translate dx dy t
  end.

Definition run (calls : list Call) (t : Transform) : Transform :=
  fold_left apply calls t.

(** The matrices of the elementary maps, and the product of two affine
    matrices ([mul m n] maps a point by [n] first and by [m] next). *)
Definition scaling (sx sy : number) : Transform := mkTransform sx 0 0 sy 0 0.
Definition translation (dx dy : number) : Transform :=
  mkTransform 1 0 0 1 dx dy.
Definition mul (m n : Transform) : Transform :=
  mkTransform (a m * a n + c m * b n) (b m * a n + d m * b n)
              (a m * c n + c m * d n) (b m * c n + d m * d n)
              (a m * e n + c m * f n + e m)
              (b m * e n + d m * f n + f m).

(** Equality of matrices and of points up to the value of their
    rational coefficients. *)
Definition Teq (m n : Transform) : Prop :=
  a m == a n /\ b m == b n /\ c m == c n /\ d m == d n /\
  e m == e n /\ f m == f n.
End transform.

End geometry.

(** ** The collaborators from [@apestaartje/number] and [@apestaartje/array] *)

Module range.
Record Range : Type := mkRange { min : number; max : number }.

(** Modelled from the spec: [number.range.inRange(value, range)] is not
    part of the repository.  The spec reads it as "the value lies within
    the range"; the single-canvas variant writes the same test out as
    [!(range.min > value || range.max < value)]. *)
Definition inRange (value : number) (r : Range) : bool :=
  Qle_bool (min r) value && Qle_bool value (max r).
End range.

Module iterator.
(** Modelled from the spec: the generator [array.iterator.range(min, max,
    step)] is not part of the repository.  The spec gives it the semantics
    "inclusive of min, steps forward while <= max": a loop that yields its
    counter while the counter is at most [stop] and then adds [step] to it.
    The loop need not end (a step of zero never leaves a non-empty range),
    so the model carries fuel: [None] says that the fuel ran out before the
    loop did, [Some l] that the loop ended after yielding [l]. *)
Fixpoint range (fuel : nat) (start stop step : number) : option (list number) :=
  match fuel with
  | O => None
  | S fuel' =>
      if Qle_bool start stop
      then option_map (cons start) (range fuel' (start + step) stop step)
      else Some []
  end.
End iterator.

(** ** Styles and the drawing primitives *)

Record LineStyle : Type :=
  mkLineStyle { strokeStyle : string; lineWidth : number }.

(** [Partial<LineStyle>]: every property may be left out. *)
Record PartialLineStyle : Type :=
  mkPartialLineStyle { strokeStyle_opt : option string;
                       lineWidth_opt : option number }.

Record TextStyle : Type :=
  mkTextStyle { font : string; fillStyle : string; textAlign : string }.

Record PartialTextStyle : Type :=
  mkPartialTextStyle { font_opt : option string;
                       fillStyle_opt : option string;
                       textAlign_opt : option string }.

Definition or_default {A : Type} (o : option A) (dflt : A) : A :=
  match o with
  | Some v => v
  | None => dflt
  end.

(** The object spread [{...base, ...over}]: a property of [over] that is
    present wins. *)
Definition spreadLine (base : LineStyle) (over : PartialLineStyle) : LineStyle :=
  mkLineStyle (or_default (strokeStyle_opt over) (strokeStyle base))
              (or_default (lineWidth_opt over) (lineWidth base)).

Definition spreadText (base : TextStyle) (over : PartialTextStyle) : TextStyle :=
  mkTextStyle (or_default (font_opt over) (font base))
              (or_default (fillStyle_opt over) (fillStyle base))
              (or_default (textAlign_opt over) (textAlign base)).

(** A full style passed where a partial one is expected. *)
Definition asPartialLine (s : LineStyle) : PartialLineStyle :=
  mkPartialLineStyle (Some (strokeStyle s)) (Some (lineWidth s)).

Definition asPartialText (s : TextStyle) : PartialTextStyle :=
  mkPartialTextStyle (Some (font s)) (Some (fillStyle s)) (Some (textAlign s)).

Definition noLineStyle : PartialLineStyle := mkPartialLineStyle None None.
Definition noTextStyle : PartialTextStyle := mkPartialTextStyle None None None.

Module canvas.
Import geometry.point.

(** Modelled from the spec: the canvas element, the line primitive and the
    text primitive are not under [src/].  The spec gives a surface a
    drawing context and a [clear()], and says of each primitive that its
    only effect is on the surface it is passed.  A surface is embedded as
    the calls it has received, oldest first.  A label is recorded by the
    number whose decimal string [String(n)] is drawn. *)
Inductive Call : Type :=
| Clear
| Line (start finish : Point) (style : LineStyle)
| Text (label : number) (position : Point) (style : TextStyle).

Definition Canvas : Type := list Call.

Definition new : Canvas := [].

Definition clear (cv : Canvas) : Canvas := cv ++ [Clear].

Definition line (start finish : Point) (style : LineStyle) (context : Canvas)
  : Canvas := context ++ [Line start finish style].

Definition text (label : number) (position : Point) (style : TextStyle)
                (context : Canvas) : Canvas :=
  context ++ [Text label position style].

(** What a surface shows: the calls received since it was last cleared. *)
Fixpoint shown_from (acc : Canvas) (cv : Canvas) : Canvas :=
  match cv with
  | [] => acc
  | Clear :: rest => shown_from [] rest
  | k :: rest => shown_from (acc ++ [k]) rest
  end.

Definition shown (cv : Canvas) : Canvas := shown_from [] cv.

Definition is_line (k : Call) : bool :=
  match k with
  | Line _ _ _ => true
  | _ => false
  end.

(** The line segments among a list of calls. *)
Definition segments (cv : Canvas) : Canvas := filter is_line cv.
End canvas.

(** ** The dual-surface variant: [src/graph/Graph.ts] *)

Module Dual.
Import geometry.point geometry.size geometry.transform range canvas.
Local Open Scope string_scope.

Definition OFFSET : number := 30.

Definition PLOT_LINE_COLOR : string := "#308c2c".

Definition GRID_LINE_COLOR : string := "#88abcf".

Definition AXIS_LINE_COLOR : string := "#ff0000".

Definition DEFAULT_LINE_STYLE : LineStyle := mkLineStyle "#000000" 1.

Definition DEFAULT_TEXT_STYLE : TextStyle :=
  mkTextStyle "10pt Arial" "#000000" "right".

(** The private fields of the class.  The CSS placement of the two canvas
    elements and [render], which only attaches them to the page, have no
    part in the state. *)
Record Graph : Type :=
  mkGraph { _background : Canvas;
            _foreground : Canvas;
            _size : Size;
            _transform : Transform;
            _xRange : Range;
            _yRange : Range }.

Definition with_background (g : Graph) (cv : Canvas) : Graph :=
  mkGraph cv (_foreground g) (_size g) (_transform g) (_xRange g) (_yRange g).

Definition with_foreground (g : Graph) (cv : Canvas) : Graph :=
  mkGraph (_background g) cv (_size g) (_transform g) (_xRange g) (_yRange g).

Definition with_transform (g : Graph) (t : Transform) : Graph :=
  mkGraph (_background g) (_foreground g) (_size g) t (_xRange g) (_yRange g).

Definition with_xRange (g : Graph) (r : Range) : Graph :=
  mkGraph (_background g) (_foreground g) (_size g) (_transform g) r (_yRange g).

Definition with_yRange (g : Graph) (r : Range) : Graph :=
  mkGraph (_background g) (_foreground g) (_size g) (_transform g) (_xRange g) r.

(** [private updateTransform(): void], one statement per line. *)
Definition updateTransform (g : Graph) : Graph :=
  let t := _transform g in
  let t := identity t in
  (* Flip the y-axis *)
  let t := scale 1 (-1) t in
  (* Set the origin to the bottom *)
  let t := translate 0 (- height (_size g)) t in
  (* Apply the offset *)
  let t := translate OFFSET OFFSET t in
  (* Apply the scale *)
  let t := scale ((width (_size g) - OFFSET * 2) / (max (_xRange g) - min (_xRange g)))
                 ((height (_size g) - OFFSET * 2) / (max (_yRange g) - min (_yRange g)))
                 t in
  (* Set the bottom left corner equal to the minimum values of the axes *)
  let t := translate (- min (_xRange g)) (- min (_yRange g)) t in
  with_transform g t.

(** [public set xRange(range)]. *)
Definition set_xRange (r : Range) (g : Graph) : Graph :=
  updateTransform (with_xRange g r).

(** [public set yRange(range)]. *)
Definition set_yRange (r : Range) (g : Graph) : Graph :=
  updateTransform (with_yRange g r).

(** [constructor(size)]: the fields take their initialisers (both ranges
    [{min: 0, max: 0}]), then the two setters run in turn. *)
Definition constructor (sz : Size) : Graph :=
  let g := mkGraph canvas.new canvas.new sz geometry.transform.new
                   (mkRange 0 0) (mkRange 0 0) in
  let g := set_xRange (mkRange 0 (width (_size g))) g in
  let g := set_yRange (mkRange 0 (height (_size g))) g in
  g.

(** The body of the [for ... of] loop of [plot], over the points still to
    come; [previous] is [None] while the variable is [undefined]. *)
Fixpoint plot_loop (t : Transform) (styling : LineStyle)
                   (previous : option Point) (points : list Point)
                   (context : Canvas) : Canvas :=
  match points with
  | [] => context
  | point :: rest =>
      let context :=
        match previous with
        | Some prev =>
            line (transformPoint t prev) (transformPoint t point) styling context
        | None => context
        end in
      plot_loop t styling (Some point) rest context
  end.

(** [public plot(points, lineStyle = {})]. *)
Definition plot (points : list Point) (lineStyle : PartialLineStyle) (g : Graph)
  : Graph :=
  let styling :=
    spreadLine (mkLineStyle PLOT_LINE_COLOR (lineWidth DEFAULT_LINE_STYLE))
               lineStyle in
  let g := with_foreground g (clear (_foreground g)) in
  with_foreground g
    (plot_loop (_transform g) styling None points (_foreground g)).

(** [public drawXLabels(step, textStyle = {})]. *)
Definition drawXLabels (fuel : nat) (step : number) (textStyle : PartialTextStyle)
                       (g : Graph) : option Graph :=
  let styling :=
    spreadText (mkTextStyle (font DEFAULT_TEXT_STYLE)
                            (fillStyle DEFAULT_TEXT_STYLE) "center")
               textStyle in
  let y := if inRange 0 (_yRange g) then 0 else min (_yRange g) in
  match iterator.range fuel (min (_xRange g)) (max (_xRange g)) step with
  | None => None
  | Some xs =>
      Some (with_background g
        (fold_left
           (fun context x =>
              let position := transformPoint (_transform g) (mkPoint x y) in
              text x
                   (mkPoint (geometry.point.x position) (geometry.point.y position + 15))
                   styling context)
           xs (_background g)))
  end.

(** [public drawYLabels(step, textStyle = {})]. *)
Definition drawYLabels (fuel : nat) (step : number) (textStyle : PartialTextStyle)
                       (g : Graph) : option Graph :=
  let styling := spreadText DEFAULT_TEXT_STYLE textStyle in
  let x := if inRange 0 (_xRange g) then 0 else min (_xRange g) in
  match iterator.range fuel (min (_yRange g)) (max (_yRange g)) step with
  | None => None
  | Some ys =>
      Some (with_background g
        (fold_left
           (fun context y =>
              let point := transformPoint (_transform g) (mkPoint x y) in
              text y
                   (mkPoint (geometry.point.x point - 5) (geometry.point.y point + 5))
                   styling context)
           ys (_background g)))
  end.

(** The line of the first loop of [drawGrid] at the tick [x], and of the
    second loop at the tick [y]. *)
Definition gridVertical (g : Graph) (styling : LineStyle) (context : Canvas)
                        (x : number) : Canvas :=
  line (transformPoint (_transform g) (mkPoint x (min (_yRange g))))
       (transformPoint (_transform g) (mkPoint x (max (_yRange g))))
       styling context.

Definition gridHorizontal (g : Graph) (styling : LineStyle) (context : Canvas)
                          (y : number) : Canvas :=
  line (transformPoint (_transform g) (mkPoint (min (_xRange g)) y))
       (transformPoint (_transform g) (mkPoint (max (_xRange g)) y))
       styling context.

(** [public drawGrid(xStep, yStep, lineStyle = {})]: the two loops run one
    after the other, so the second generator is started only when the
    first has ended. *)
Definition drawGrid (fuel : nat) (xStep yStep : number)
                    (lineStyle : PartialLineStyle) (g : Graph) : option Graph :=
  let styling :=
    spreadLine (mkLineStyle GRID_LINE_COLOR (lineWidth DEFAULT_LINE_STYLE))
               lineStyle in
  match iterator.range fuel (min (_xRange g)) (max (_xRange g)) xStep with
  | None => None
  | Some xs =>
      let g1 := with_background g
                  (fold_left (gridVertical g styling) xs (_background g)) in
      match iterator.range fuel (min (_yRange g1)) (max (_yRange g1)) yStep with
      | None => None
      | Some ys =>
          Some (with_background g1
                  (fold_left (gridHorizontal g1 styling) ys (_background g1)))
      end
  end.

(** [public drawXAxis(lineStyle = {})]. *)
Definition drawXAxis (lineStyle : PartialLineStyle) (g : Graph) : Graph :=
  let styling := spreadLine (mkLineStyle AXIS_LINE_COLOR 2) lineStyle in
  let y := if inRange 0 (_yRange g) then 0 else min (_yRange g) in
  with_background g
    (line (transformPoint (_transform g) (mkPoint (min (_xRange g)) y))
          (transformPoint (_transform g) (mkPoint (max (_xRange g)) y))
          styling (_background g)).

(** [public drawYAxis(lineStyle = {})]. *)
Definition drawYAxis (lineStyle : PartialLineStyle) (g : Graph) : Graph :=
  let styling := spreadLine (mkLineStyle AXIS_LINE_COLOR 2) lineStyle in
  let x := if inRange 0 (_xRange g) then 0 else min (_xRange g) in
  with_background g
    (line (transformPoint (_transform g) (mkPoint x (min (_yRange g))))
          (transformPoint (_transform g) (mkPoint x (max (_yRange g))))
          styling (_background g)).
End Dual.

(** ** The single-canvas variant: the second [Graph] class *)

Module Single.
Import geometry.point geometry.size geometry.transform range canvas.
Local Open Scope string_scope.

Definition OFFSET : number := 30.

Definition DEFAULT_LINE_STYLE : LineStyle := mkLineStyle "#000000" 1.

Definition DEFAULT_TEXT_STYLE : TextStyle :=
  mkTextStyle "10pt Arial" "#000000" "left".

Record Graph : Type :=
  mkGraph { _canvas : Canvas;
            _size : Size;
            _transform : Transform;
            _xRange : Range;
            _yRange : Range }.

Definition with_canvas (g : Graph) (cv : Canvas) : Graph :=
  mkGraph cv (_size g) (_transform g) (_xRange g) (_yRange g).

Definition with_transform (g : Graph) (t : Transform) : Graph :=
  mkGraph (_canvas g) (_size g) t (_xRange g) (_yRange g).

Definition with_xRange (g : Graph) (r : Range) : Graph :=
  mkGraph (_canvas g) (_size g) (_transform g) r (_yRange g).

Definition with_yRange (g : Graph) (r : Range) : Graph :=
  mkGraph (_canvas g) (_size g) (_transform g) (_xRange g) r.

(** [private updateTransform(): void]. *)
Definition updateTransform (g : Graph) : Graph :=
  let t := _transform g in
  let t := identity t in
  let t := scale 1 (-1) t in
  let t := translate 0 (- height (_size g)) t in
  let t := translate OFFSET OFFSET t in
  let t := scale ((width (_size g) - OFFSET * 2) / (max (_xRange g) - min (_xRange g)))
                 ((height (_size g) - OFFSET * 2) / (max (_yRange g) - min (_yRange g)))
                 t in
  let t := translate (- min (_xRange g)) (- min (_yRange g)) t in
  with_transform g t.

Definition set_xRange (r : Range) (g : Graph) : Graph :=
  updateTransform (with_xRange g r).

Definition set_yRange (r : Range) (g : Graph) : Graph :=
  updateTransform (with_yRange g r).

Definition constructor (sz : Size) : Graph :=
  let g := mkGraph canvas.new sz geometry.transform.new
                   (mkRange 0 0) (mkRange 0 0) in
  let g := set_xRange (mkRange 0 (width (_size g))) g in
  let g := set_yRange (mkRange 0 (height (_size g))) g in
  g.

(** [private drawLine(start, end, style = {})]: the logical end points are
    transformed here. *)
Definition drawLine (start finish : Point) (style : PartialLineStyle) (g : Graph)
  : Graph :=
  let styling := spreadLine DEFAULT_LINE_STYLE style in
  with_canvas g
    (line (transformPoint (_transform g) start)
          (transformPoint (_transform g) finish)
          styling (_canvas g)).

(** [private drawText(str, point, style)]: the point is a pixel point. *)
Definition drawText (str : number) (point : Point) (style : PartialTextStyle)
                    (g : Graph) : Graph :=
  let styling := spreadText DEFAULT_TEXT_STYLE style in
  with_canvas g (text str point styling (_canvas g)).

Fixpoint plot_loop (styling : LineStyle) (previous : option Point)
                   (points : list Point) (g : Graph) : Graph :=
  match points with
  | [] => g
  | point :: rest =>
      let g :=
        match previous with
        | Some prev => drawLine prev point (asPartialLine styling) g
        | None => g
        end in
      plot_loop styling (Some point) rest g
  end.

(** [public plot(points, lineStyle = {})]: nothing is cleared. *)
Definition plot (points : list Point) (lineStyle : PartialLineStyle) (g : Graph)
  : Graph :=
  let styling := spreadLine (mkLineStyle "#308c2c" 1) lineStyle in
  plot_loop styling None points g.

(** [let y = 0; if (range.min > 0 || range.max < 0) { y = range.min; }]. *)
Definition axisPosition (r : Range) : number :=
  if Qlt_bool 0 (min r) || Qlt_bool (max r) 0 then min r else 0.

Definition drawXLabels (fuel : nat) (step : number) (textStyle : PartialTextStyle)
                       (g : Graph) : option Graph :=
  let styling := spreadText DEFAULT_TEXT_STYLE textStyle in
  let y := axisPosition (_yRange g) in
  match iterator.range fuel (min (_xRange g)) (max (_xRange g)) step with
  | None => None
  | Some xs =>
      Some (fold_left
              (fun g x =>
                 let position := transformPoint (_transform g) (mkPoint x y) in
                 drawText x
                          (mkPoint (geometry.point.x position - 5)
                                   (geometry.point.y position + 15))
                          (asPartialText styling) g)
              xs g)
  end.

Definition drawYLabels (fuel : nat) (step : number) (textStyle : PartialTextStyle)
                       (g : Graph) : option Graph :=
  let styling := spreadText DEFAULT_TEXT_STYLE textStyle in
  let x := axisPosition (_xRange g) in
  match iterator.range fuel (min (_yRange g)) (max (_yRange g)) step with
  | None => None
  | Some ys =>
      Some (fold_left
              (fun g y =>
                 let point := transformPoint (_transform g) (mkPoint x y) in
                 drawText y
                          (mkPoint (geometry.point.x point - 30)
                                   (geometry.point.y point + 5))
                          (asPartialText styling) g)
              ys g)
  end.

Definition gridVertical (styling : LineStyle) (g : Graph) (x : number) : Graph :=
  drawLine (mkPoint x (min (_yRange g))) (mkPoint x (max (_yRange g)))
           (asPartialLine styling) g.

Definition gridHorizontal (styling : LineStyle) (g : Graph) (y : number) : Graph :=
  drawLine (mkPoint (min (_xRange g)) y) (mkPoint (max (_xRange g)) y)
           (asPartialLine styling) g.

Definition drawGrid (fuel : nat) (xStep yStep : number)
                    (lineStyle : PartialLineStyle) (g : Graph) : option Graph :=
  let styling := spreadLine (mkLineStyle "#88abcf" 1) lineStyle in
  match iterator.range fuel (min (_xRange g)) (max (_xRange g)) xStep with
  | None => None
  | Some xs =>
      let g := fold_left (gridVertical styling) xs g in
      match iterator.range fuel (min (_yRange g)) (max (_yRange g)) yStep with
      | None => None
      | Some ys => Some (fold_left (gridHorizontal styling) ys g)
      end
  end.

Definition drawXAxis (lineStyle : PartialLineStyle) (g : Graph) : Graph :=
  let styling := spreadLine (mkLineStyle "#FF0000" 2) lineStyle in
  let y := axisPosition (_yRange g) in
  drawLine (mkPoint (min (_xRange g)) y) (mkPoint (max (_xRange g)) y)
           (asPartialLine styling) g.

Definition drawYAxis (lineStyle : PartialLineStyle) (g : Graph) : Graph :=
  let styling := spreadLine (mkLineStyle "#FF0000" 2) lineStyle in
  let x := axisPosition (_xRange g) in
  drawLine (mkPoint x (min (_yRange g))) (mkPoint x (max (_yRange g)))
           (asPartialLine styling) g.
End Single.

(** ** The vocabulary of the statements *)

Import geometry.point geometry.size geometry.transform range.

(** The calls of the transform contract, in its order, for a surface of size
    [sz] and the ranges [xr] and [yr], with the margin of 30 pixels written
    out. *)
Definition recompute (sz : Size) (xr yr : Range) : list geometry.transform.Call :=
  [ Identity;
    Scale 1 (-1);
    Translate 0 (- height sz);
    Translate 30 30;
    Scale ((width sz - 2 * 30) / (max xr - min xr))
          ((height sz - 2 * 30) / (max yr - min yr));
    Translate (- min xr) (- min yr) ].

(** The same composition as a product of matrices, left to right. *)
Definition recomputeMatrix (sz : Size) (xr yr : Range) : Transform :=
  mul (mul (mul (mul (mul geometry.transform.new
                          (scaling 1 (-1)))
                     (translation 0 (- height sz)))
                (translation 30 30))
           (scaling ((width sz - 2 * 30) / (max xr - min xr))
                    ((height sz - 2 * 30) / (max yr - min yr))))
      (translation (- min xr) (- min yr)).

(** The pairs (previous, current) of a sequence, in its order. *)
Definition adjacent {A : Type} (l : list A) : list (A * A) :=
  combine l (tl l).

(** The segment [plot] strokes for a pair of logical points. *)
Definition segment (t : Transform) (styling : LineStyle) (pq : Point * Point)
  : canvas.Call :=
  canvas.Line (transformPoint t (fst pq)) (transformPoint t (snd pq)) styling.

(** What [plot] strokes for a sequence of logical points. *)
Definition plotted (t : Transform) (styling : LineStyle) (points : list Point)
  : canvas.Canvas :=
  map (segment t styling) (adjacent points).

(** Where an axis crosses the other one: at 0 when 0 lies within the range,
    at the minimum of the range otherwise. *)
Definition axisAt (r : Range) : number :=
  if inRange 0 r then 0 else min r.

(** The calls of a surface with every coordinate in lowest terms, to read
    concrete pixels off a computed surface. *)
Definition reducedPoint (p : Point) : Point := mkPoint (Qred (x p)) (Qred (y p)).

Definition reducedCall (k : canvas.Call) : canvas.Call :=
  match k with
  | canvas.Clear => canvas.Clear
  | canvas.Line start finish style =>
      canvas.Line (reducedPoint start) (reducedPoint finish) style
  | canvas.Text label position style =>
      canvas.Text (Qred label) (reducedPoint position) style
  end.

Definition reduced (cv : canvas.Canvas) : canvas.Canvas := map reducedCall cv.

Definition is_clear (k : canvas.Call) : bool :=
  match k with
  | canvas.Clear => true
  | _ => false
  end.

(** The grid line at the tick [x] across the range [yr], and at the tick
    [y] across the range [xr]. *)
Definition vertical (t : Transform) (yr : Range) (styling : LineStyle)
                    (x : number) : canvas.Call :=
  canvas.Line (transformPoint t (mkPoint x (min yr)))
              (transformPoint t (mkPoint x (max yr))) styling.

Definition horizontal (t : Transform) (xr : Range) (styling : LineStyle)
                      (y : number) : canvas.Call :=
  canvas.Line (transformPoint t (mkPoint (min xr) y))
              (transformPoint t (mkPoint (max xr) y)) styling.

(** The drawing calls of the dual-surface chart, as data, and a chain of
    them run in order ([None] when a generator runs out of fuel). *)
Inductive Drawing : Type :=
| Plot (points : list Point) (lineStyle : PartialLineStyle)
| DrawXLabels (step : number) (textStyle : PartialTextStyle)
| DrawYLabels (step : number) (textStyle : PartialTextStyle)
| DrawGrid (xStep yStep : number) (lineStyle : PartialLineStyle)
| DrawXAxis (lineStyle : PartialLineStyle)
| DrawYAxis (lineStyle : PartialLineStyle).

Definition draw (fuel : nat) (k : Drawing) (g : Dual.Graph) : option Dual.Graph :=
  match k with
  | Plot points lineStyle => Some (Dual.plot points lineStyle g)
  | DrawXLabels step textStyle => Dual.drawXLabels fuel step textStyle g
  | DrawYLabels step textStyle => Dual.drawYLabels fuel step textStyle g
  | DrawGrid xStep yStep lineStyle => Dual.drawGrid fuel xStep yStep lineStyle g
  | DrawXAxis lineStyle => Some (Dual.drawXAxis lineStyle g)
  | DrawYAxis lineStyle => Some (Dual.drawYAxis lineStyle g)
  end.

Fixpoint drawAll (fuel : nat) (calls : list Drawing) (g : Dual.Graph)
  : option Dual.Graph :=
  match calls with
  | [] => Some g
  | k :: rest =>
      match draw fuel k g with
      | Some g' => drawAll fuel rest g'
      | None => None
      end
  end.

(** The part of the chart that no drawing call may touch. *)
Definition sameMapping (g g' : Dual.Graph) : Prop :=
  Dual._xRange g' = Dual._xRange g /\
  Dual._yRange g' = Dual._yRange g /\
  Dual._size g' = Dual._size g /\
  Dual._transform g' = Dual._transform g.

(** The drawing calls on the single-canvas chart. *)
Definition drawSingle (fuel : nat) (k : Drawing) (g : Single.Graph)
  : option Single.Graph :=
  match k with
  | Plot points lineStyle => Some (Single.plot points lineStyle g)
  | DrawXLabels step textStyle => Single.drawXLabels fuel step textStyle g
  | DrawYLabels step textStyle => Single.drawYLabels fuel step textStyle g
  | DrawGrid xStep yStep lineStyle => Single.drawGrid fuel xStep yStep lineStyle g
  | DrawXAxis lineStyle => Some (Single.drawXAxis lineStyle g)
  | DrawYAxis lineStyle => Some (Single.drawYAxis lineStyle g)
  end.

Fixpoint drawAllSingle (fuel : nat) (calls : list Drawing) (g : Single.Graph)
  : option Single.Graph :=
  match calls with
  | [] => Some g
  | k :: rest =>
      match drawSingle fuel k g with
      | Some g' => drawAllSingle fuel rest g'
      | None => None
      end
  end.

(** A call of the public interface of the dual-surface chart: a range
    setter or a drawing call; and a chain of them run in order. *)
Inductive Operation : Type :=
| SetXRange (r : Range)
| SetYRange (r : Range)
| Draws (k : Drawing).

Definition operate (fuel : nat) (op : Operation) (g : Dual.Graph)
  : option Dual.Graph :=
  match op with
  | SetXRange r => Some (Dual.set_xRange r g)
  | SetYRange r => Some (Dual.set_yRange r g)
  | Draws k => draw fuel k g
  end.

Fixpoint operateAll (fuel : nat) (ops : list Operation) (g : Dual.Graph)
  : option Dual.Graph :=
  match ops with
  | [] => Some g
  | op :: rest =>
      match operate fuel op g with
      | Some g' => operateAll fuel rest g'
      | None => None
      end
  end.

(** The arguments of the last [plot] of a chain of drawing calls. *)
Fixpoint lastPlot (calls : list Drawing)
  : option (list Point * PartialLineStyle) :=
  match calls with
  | [] => None
  | k :: rest =>
      match lastPlot rest with
      | Some found => Some found
      | None =>
          match k with
          | Plot points lineStyle => Some (points, lineStyle)
          | _ => None
          end
      end
  end.

(** The label of a tick of the x axis and of the y axis, in each variant:
    the tick's value, at the pixel of the tick on the axis, moved by the
    variant's nudge. *)
Definition xLabelDual (t : Transform) (yr : Range) (styling : TextStyle)
                      (tick : number) : canvas.Call :=
  canvas.Text tick
    (mkPoint (x (transformPoint t (mkPoint tick (axisAt yr))))
             (y (transformPoint t (mkPoint tick (axisAt yr))) + 15))
    styling.

Definition yLabelDual (t : Transform) (xr : Range) (styling : TextStyle)
                      (tick : number) : canvas.Call :=
  canvas.Text tick
    (mkPoint (x (transformPoint t (mkPoint (axisAt xr) tick)) - 5)
             (y (transformPoint t (mkPoint (axisAt xr) tick)) + 5))
    styling.

Definition xLabelSingle (t : Transform) (yr : Range) (styling : TextStyle)
                        (tick : number) : canvas.Call :=
  canvas.Text tick
    (mkPoint (x (transformPoint t (mkPoint tick (axisAt yr))) - 5)
             (y (transformPoint t (mkPoint tick (axisAt yr))) + 15))
    styling.

Definition yLabelSingle (t : Transform) (xr : Range) (styling : TextStyle)
                        (tick : number) : canvas.Call :=
  canvas.Text tick
    (mkPoint (x (transformPoint t (mkPoint (axisAt xr) tick)) - 30)
             (y (transformPoint t (mkPoint (axisAt xr) tick)) + 5))
    styling.

(** The chain of drawing calls of the README, for a chart of 600 by 600. *)
Definition readme : list Drawing :=
  [ DrawGrid 50 50 noLineStyle;
    DrawXAxis noLineStyle;
    DrawYAxis noLineStyle;
    DrawYLabels 50 noTextStyle;
    DrawXLabels 100 noTextStyle;
    Plot [mkPoint 0 0; mkPoint 120 30; mkPoint 320 300] noLineStyle ].

(** The transform of the chart is the one its size and ranges call for. *)
Definition upToDate (g : Dual.Graph) : Prop :=
  Dual._transform g
  = run (recompute (Dual._size g) (Dual._xRange g) (Dual._yRange g))
        geometry.transform.new.

(** ** Range objects shared with the caller

    The setters store the object they are given ([this._xRange = range]),
    not a copy, so the caller still holds it and may change its [min] and
    [max].  Here the range objects live in a heap; the chart holds
    references, and every method reads the bounds through them at the time
    it runs.  The two objects the constructor makes for the default ranges
    are its own; the caller reaches the objects it made itself only. *)

Module Shared.

Inductive Ref : Type :=
| defaultX
| defaultY
| object (n : nat).

Definition Ref_eqb (r s : Ref) : bool :=
  match r, s with
  | defaultX, defaultX => true
  | defaultY, defaultY => true
  | object n, object m => Nat.eqb n m
  | _, _ => false
  end.

Definition Heap : Type := Ref -> Range.

Definition write (h : Heap) (r : Ref) (v : Range) : Heap :=
  fun s => if Ref_eqb s r then v else h s.

Record Chart : Type :=
  mkChart { _background : canvas.Canvas;
            _foreground : canvas.Canvas;
            _size : Size;
            _transform : Transform;
            _xRange : Ref;
            _yRange : Ref }.

Record World : Type := mkWorld { heap : Heap; chart : Chart }.

(** The chart as a method sees it: each range read through its
    reference. *)
Definition read (w : World) : Dual.Graph :=
  Dual.mkGraph (_background (chart w)) (_foreground (chart w))
               (_size (chart w)) (_transform (chart w))
               (heap w (_xRange (chart w))) (heap w (_yRange (chart w))).

(** What a method leaves in the chart: the two canvases and the
    transform; no method of the class writes to a range object. *)
Definition keep (w : World) (g : Dual.Graph) : World :=
  mkWorld (heap w)
          (mkChart (Dual._background g) (Dual._foreground g) (Dual._size g)
                   (Dual._transform g)
                   (_xRange (chart w)) (_yRange (chart w))).

(** [graph.xRange = r] and [graph.yRange = r] for an object [r]. *)
Definition assignX (r : Ref) (w : World) : World :=
  let w := mkWorld (heap w)
                   (mkChart (_background (chart w)) (_foreground (chart w))
                            (_size (chart w)) (_transform (chart w))
                            r (_yRange (chart w))) in
  keep w (Dual.updateTransform (read w)).

Definition assignY (r : Ref) (w : World) : World :=
  let w := mkWorld (heap w)
                   (mkChart (_background (chart w)) (_foreground (chart w))
                            (_size (chart w)) (_transform (chart w))
                            (_xRange (chart w)) r) in
  keep w (Dual.updateTransform (read w)).

(** The caller changes the bounds of its object number [n]. *)
Definition mutate (n : nat) (v : Range) (w : World) : World :=
  mkWorld (write (heap w) (object n) v) (chart w).

(** A drawing call. *)
Definition call (fuel : nat) (k : Drawing) (w : World) : option World :=
  option_map (keep w) (draw fuel k (read w)).

(** [new Graph(size)] in a heap [h] of the caller's objects. *)
Definition constructor (sz : Size) (h : Heap) : World :=
  let w := mkWorld (write (write h defaultX (mkRange 0 0)) defaultY (mkRange 0 0))
                   (mkChart canvas.new canvas.new sz geometry.transform.new
                            defaultX defaultY) in
  let w := mkWorld (write (heap w) defaultX (mkRange 0 (width sz))) (chart w) in
  let w := keep w (Dual.updateTransform (read w)) in
  let w := mkWorld (write (heap w) defaultY (mkRange 0 (height sz))) (chart w) in
  keep w (Dual.updateTransform (read w)).

End Shared.

(** ** The arithmetic of the transform on binary64 numbers

    A TypeScript [number] is an IEEE-754 binary64 value, and so is every
    coefficient of the matrix and every pixel.  This module embeds the part
    of the chart that computes with them (the size, the two ranges, the
    matrix, the setters, [updateTransform] and the constructor) on the
    binary64 numbers of the kernel, operation for operation and in the order
    of the source.  The canvases take no part in the arithmetic and are left
    to the embedding above. *)

Module Double.
Import PrimFloat SpecFloat FloatOps.
Local Open Scope float_scope.

Record Point : Type := mkPoint { x : float; y : float }.

Record Size : Type := mkSize { width : float; height : float }.

Record Range : Type := mkRange { min : float; max : float }.

(** Modelled from the spec: the class [Transform] of the package
    [@apestaartje/geometry], as in [geometry.transform] above, on binary64
    numbers. *)
Record Transform : Type :=
  mkTransform { a : float; b : float; c : float; d : float;
                e : float; f : float }.

(** Modelled from the spec: [new Transform()]. *)
Definition new : Transform := mkTransform 1 0 0 1 0 0.

(** Modelled from the spec: [identity()]. *)
Definition identity (t : Transform) : Transform := mkTransform 1 0 0 1 0 0.

(** Modelled from the spec: [scale(sx, sy)]. *)
Definition scale (sx sy : float) (t : Transform) : Transform :=
  mkTransform (a t * sx) (b t * sx) (c t * sy) (d t * sy) (e t) (f t).

(** Modelled from the spec: [translate(dx, dy)]. *)
Definition translate (dx dy : float) (t : Transform) : Transform :=
  mkTransform (a t) (b t) (c t) (d t)
              (e t + (a t * dx + c t * dy))
              (f t + (b t * dx + d t * dy)).

(** Modelled from the spec: [transformPoint(p)]. *)
Definition transformPoint (t : Transform) (p : Point) : Point :=
  mkPoint (x p * a t + y p * c t + e t)
          (x p * b t + y p * d t + f t).

Definition OFFSET : float := 30.

Record Graph : Type :=
  mkGraph { _size : Size;
            _transform : Transform;
            _xRange : Range;
            _yRange : Range }.

(** [private updateTransform(): void]. *)
Definition updateTransform (g : Graph) : Graph :=
  let t := _transform g in
  let t := identity t in
  let t := scale 1 (-1) t in
  let t := translate 0 (- height (_size g)) t in
  let t := translate OFFSET OFFSET t in
  let t := scale ((width (_size g) - OFFSET * 2) / (max (_xRange g) - min (_xRange g)))
                 ((height (_size g) - OFFSET * 2) / (max (_yRange g) - min (_yRange g)))
                 t in
  let t := translate (- min (_xRange g)) (- min (_yRange g)) t in
  mkGraph (_size g) t (_xRange g) (_yRange g).

(** [public set xRange(range)] and [public set yRange(range)]. *)
Definition set_xRange (r : Range) (g : Graph) : Graph :=
  updateTransform (mkGraph (_size g) (_transform g) r (_yRange g)).

Definition set_yRange (r : Range) (g : Graph) : Graph :=
  updateTransform (mkGraph (_size g) (_transform g) (_xRange g) r).

(** [constructor(size)]: the first setter runs while yRange is still
    [{min: 0, max: 0}], so its matrix holds a division by zero; the second
    setter rebuilds the matrix from the identity. *)
Definition constructor (sz : Size) : Graph :=
  let g := mkGraph sz new (mkRange 0 0) (mkRange 0 0) in
  let g := set_xRange (mkRange 0 (width (_size g))) g in
  let g := set_yRange (mkRange 0 (height (_size g))) g in
  g.




End Double.

(** ** The transform *)

Lemma scale_is_product (sx sy : number) (t : Transform) :
  Teq (scale sx sy t) (mul t (scaling sx sy)).
Proof.
  unfold Teq, scale, mul, scaling; simpl.
  repeat split; ring.
Qed.

Lemma translate_is_product (dx dy : number) (t : Transform) :
  Teq (translate dx dy t) (mul t (translation dx dy)).
Proof.
  unfold Teq, translate, mul, translation; simpl.
  repeat split; ring.
Qed.

Lemma recompute_is_product (sz : Size) (xr yr : Range) (t : Transform) :
  Teq (run (recompute sz xr yr) t) (recomputeMatrix sz xr yr).
Proof.
  unfold Teq, run, recompute, recomputeMatrix; simpl.
  repeat split; ring.
Qed.

(** The pixel a logical point is sent to once the transform is rebuilt. *)
Lemma recompute_transformPoint (sz : Size) (xr yr : Range) (t : Transform) (p : Point) :
  x (transformPoint (run (recompute sz xr yr) t) p)
    == 30 + (width sz - 60) / (max xr - min xr) * (x p - min xr) /\
  y (transformPoint (run (recompute sz xr yr) t) p)
    == height sz - 30 - (height sz - 60) / (max yr - min yr) * (y p - min yr).
Proof.
  unfold run, recompute, Qdiv; simpl.
  split; ring.
Qed.

Lemma Dual_updateTransform_run (g : Dual.Graph) :
  Dual.updateTransform g
  = Dual.with_transform g
      (run (recompute (Dual._size g) (Dual._xRange g) (Dual._yRange g))
           (Dual._transform g)).
Proof. reflexivity. Qed.

Lemma Single_updateTransform_run (g : Single.Graph) :
  Single.updateTransform g
  = Single.with_transform g
      (run (recompute (Single._size g) (Single._xRange g) (Single._yRange g))
           (Single._transform g)).
Proof. reflexivity. Qed.

(** The rebuilt matrix does not depend on the matrix it replaces. *)
Lemma run_recompute_forgets (sz : Size) (xr yr : Range) (t t' : Transform) :
  run (recompute sz xr yr) t = run (recompute sz xr yr) t'.
Proof. reflexivity. Qed.

(** C1.  After a range is set, in either variant, the transform matrix is the
    composition, in this order, of: identity; scale(1, -1);
    translate(0, -size.height); translate(OFFSET, OFFSET) with OFFSET = 30;
    scale((size.width - 2*OFFSET) / (xRange.max - xRange.min),
          (size.height - 2*OFFSET) / (yRange.max - yRange.min));
    translate(-xRange.min, -yRange.min), taken at the size of the chart, the
    range just set and the other range as it stands.  The composition is also
    the product of the six matrices, left to right. *)
Theorem set_range_rebuilds_transform :
  Dual.OFFSET = 30 /\ Single.OFFSET = 30 /\
  (forall (g : Dual.Graph) (r : Range),
      Dual._xRange (Dual.set_xRange r g) = r /\
      Dual._yRange (Dual.set_xRange r g) = Dual._yRange g /\
      Dual._size (Dual.set_xRange r g) = Dual._size g /\
      Dual._transform (Dual.set_xRange r g)
      = run (recompute (Dual._size g) r (Dual._yRange g)) (Dual._transform g)) /\
  (forall (g : Dual.Graph) (r : Range),
      Dual._xRange (Dual.set_yRange r g) = Dual._xRange g /\
      Dual._yRange (Dual.set_yRange r g) = r /\
      Dual._size (Dual.set_yRange r g) = Dual._size g /\
      Dual._transform (Dual.set_yRange r g)
      = run (recompute (Dual._size g) (Dual._xRange g) r) (Dual._transform g)) /\
  (forall (g : Single.Graph) (r : Range),
      Single._xRange (Single.set_xRange r g) = r /\
      Single._yRange (Single.set_xRange r g) = Single._yRange g /\
      Single._size (Single.set_xRange r g) = Single._size g /\
      Single._transform (Single.set_xRange r g)
      = run (recompute (Single._size g) r (Single._yRange g)) (Single._transform g)) /\
  (forall (g : Single.Graph) (r : Range),
      Single._xRange (Single.set_yRange r g) = Single._xRange g /\
      Single._yRange (Single.set_yRange r g) = r /\
      Single._size (Single.set_yRange r g) = Single._size g /\
      Single._transform (Single.set_yRange r g)
      = run (recompute (Single._size g) (Single._xRange g) r) (Single._transform g)) /\
  (forall (sz : Size) (xr yr : Range) (t : Transform),
      Teq (run (recompute sz xr yr) t) (recomputeMatrix sz xr yr)).
Proof.
  split; [reflexivity|].
  split; [reflexivity|].
  split; [intros g r; repeat split|].
  split; [intros g r; repeat split|].
  split; [intros g r; repeat split|].
  split; [intros g r; repeat split|].
  exact recompute_is_product.
Qed.


Lemma Single_constructor_state (sz : Size) :
  Single.constructor sz
  = Single.mkGraph canvas.new sz
      (run (recompute sz (mkRange 0 (width sz)) (mkRange 0 (height sz)))
           geometry.transform.new)
      (mkRange 0 (width sz)) (mkRange 0 (height sz)).
Proof. reflexivity. Qed.


(** ** The transform on binary64 numbers *)

Section Binary64.
Import PrimFloat SpecFloat FloatOps FloatAxioms.
Local Open Scope float_scope.













End Binary64.

(** C6.  Setting xRange twice in succession to the same value leaves the
    same transform matrix (indeed the same chart) as setting it once; and the
    matrix a setter leaves does not depend on the matrix it found, that is on
    the history of updates, only on the size and the two ranges. *)
Theorem set_xRange_twice (g : Dual.Graph) (r : Range) :
  Dual._transform (Dual.set_xRange r (Dual.set_xRange r g))
  = Dual._transform (Dual.set_xRange r g) /\
  Dual.set_xRange r (Dual.set_xRange r g) = Dual.set_xRange r g /\
  (forall t : Transform,
      Dual._transform (Dual.set_xRange r (Dual.with_transform g t))
      = Dual._transform (Dual.set_xRange r g)) /\
  (forall (bg fg bg' fg' : canvas.Canvas) (t t' : Transform) (xr xr' : Range),
      Dual._transform
        (Dual.set_xRange r (Dual.mkGraph bg fg (Dual._size g) t xr (Dual._yRange g)))
      = Dual._transform
          (Dual.set_xRange r
             (Dual.mkGraph bg' fg' (Dual._size g) t' xr' (Dual._yRange g)))).
Proof.
  repeat split.
Qed.

(** C9.  The two variants build the same matrix: for every size and every
    pair of ranges, whatever each chart held before, [updateTransform] of
    the single-canvas variant and of the dual-surface variant leave equal
    matrices, so [transformPoint] agrees on every logical point; the same
    holds of the charts as constructed and after their setters. *)
Theorem variants_build_the_same_transform
        (sz : Size) (xr yr : Range) (t1 t2 : Transform)
        (cv bg fg : canvas.Canvas) :
  Single._transform (Single.updateTransform (Single.mkGraph cv sz t1 xr yr))
  = Dual._transform (Dual.updateTransform (Dual.mkGraph bg fg sz t2 xr yr)) /\
  (forall p : Point,
      transformPoint
        (Single._transform (Single.updateTransform (Single.mkGraph cv sz t1 xr yr))) p
      = transformPoint
          (Dual._transform (Dual.updateTransform (Dual.mkGraph bg fg sz t2 xr yr))) p) /\
  Single._transform (Single.constructor sz) = Dual._transform (Dual.constructor sz) /\
  Single._transform (Single.set_yRange yr (Single.set_xRange xr (Single.constructor sz)))
  = Dual._transform (Dual.set_yRange yr (Dual.set_xRange xr (Dual.constructor sz))) /\
  Single._transform (Single.set_xRange xr (Single.set_yRange yr (Single.constructor sz)))
  = Dual._transform (Dual.set_xRange xr (Dual.set_yRange yr (Dual.constructor sz))).
Proof.
  repeat split.
Qed.

(** ** Sequences and surfaces *)

Lemma adjacent_cons {A : Type} (p q : A) (l : list A) :
  adjacent (p :: q :: l) = (p, q) :: adjacent (q :: l).
Proof. reflexivity. Qed.

Lemma adjacent_length {A : Type} (l : list A) :
  length (adjacent l) = Nat.pred (length l).
Proof.
  unfold adjacent.
  rewrite length_combine.
  destruct l as [|p l]; cbn [length tl Nat.pred]; [reflexivity|].
  apply Nat.min_r. apply Nat.le_succ_diag_r.
Qed.

(** The [i]-th pair joins the [i]-th point to the next one. *)
Lemma adjacent_nth_error {A : Type} (l : list A) (i : nat) (p q : A) :
  nth_error l i = Some p -> nth_error l (S i) = Some q ->
  nth_error (adjacent l) i = Some (p, q).
Proof.
  revert i.
  induction l as [|a l IH]; intros i Hp Hq.
  - destruct i; discriminate.
  - destruct l as [|a' l].
    + destruct i; simpl in Hq; [discriminate | destruct i; discriminate].
    + rewrite adjacent_cons.
      destruct i as [|i].
      * simpl in Hp, Hq. simpl. congruence.
      * simpl. apply IH; assumption.
Qed.

Lemma shown_from_app (acc l1 l2 : canvas.Canvas) :
  canvas.shown_from acc (l1 ++ l2)
  = canvas.shown_from (canvas.shown_from acc l1) l2.
Proof.
  revert acc.
  induction l1 as [|k l1 IH]; intro acc; simpl; [reflexivity|].
  destruct k; apply IH.
Qed.

Lemma shown_from_lines (acc l : canvas.Canvas) :
  forallb canvas.is_line l = true -> canvas.shown_from acc l = acc ++ l.
Proof.
  revert acc.
  induction l as [|k l IH]; intros acc Hl; simpl.
  - symmetry; apply app_nil_r.
  - simpl in Hl. apply andb_true_iff in Hl. destruct Hl as [Hk Hl].
    destruct k; try discriminate.
    rewrite IH by assumption.
    rewrite <- app_assoc. reflexivity.
Qed.

Lemma shown_after_clear (cv l : canvas.Canvas) :
  forallb canvas.is_line l = true ->
  canvas.shown (cv ++ canvas.Clear :: l) = l.
Proof.
  intro Hl.
  unfold canvas.shown.
  rewrite shown_from_app. simpl.
  apply shown_from_lines; assumption.
Qed.

Lemma segments_are_lines (t : Transform) (styling : LineStyle)
      (l : list (Point * Point)) :
  forallb canvas.is_line (map (segment t styling) l) = true.
Proof.
  induction l as [|pq l IH]; simpl; [reflexivity | assumption].
Qed.

(** ** [plot] *)

Lemma Dual_plot_loop_from (t : Transform) (styling : LineStyle)
      (points : list Point) (prev : Point) (context : canvas.Canvas) :
  Dual.plot_loop t styling (Some prev) points context
  = context ++ map (segment t styling) (adjacent (prev :: points)).
Proof.
  revert prev context.
  induction points as [|q points IH]; intros prev context; simpl.
  - symmetry; apply app_nil_r.
  - rewrite IH. unfold canvas.line.
    rewrite <- app_assoc. reflexivity.
Qed.

Lemma Dual_plot_loop (t : Transform) (styling : LineStyle)
      (points : list Point) (context : canvas.Canvas) :
  Dual.plot_loop t styling None points context
  = context ++ map (segment t styling) (adjacent points).
Proof.
  destruct points as [|p points]; simpl.
  - symmetry; apply app_nil_r.
  - apply Dual_plot_loop_from.
Qed.

Lemma Dual_plot_state (points : list Point) (lineStyle : PartialLineStyle)
      (g : Dual.Graph) :
  Dual.plot points lineStyle g
  = Dual.with_foreground g
      (Dual._foreground g ++
       canvas.Clear ::
       map (segment (Dual._transform g)
                    (spreadLine (mkLineStyle Dual.PLOT_LINE_COLOR 1) lineStyle))
           (adjacent points)).
Proof.
  unfold Dual.plot. cbn [Dual.with_foreground Dual._foreground Dual._transform
                         Dual._background Dual._size Dual._xRange Dual._yRange].
  rewrite Dual_plot_loop. unfold canvas.clear.
  rewrite <- app_assoc. reflexivity.
Qed.

Lemma spreadLine_asPartial (base s : LineStyle) :
  spreadLine base (asPartialLine s) = s.
Proof. destruct s; reflexivity. Qed.

Lemma Single_plot_loop_from (styling : LineStyle) (points : list Point)
      (prev : Point) (g : Single.Graph) :
  Single.plot_loop styling (Some prev) points g
  = Single.with_canvas g
      (Single._canvas g ++
       map (segment (Single._transform g) styling) (adjacent (prev :: points))).
Proof.
  revert prev g.
  induction points as [|q points IH]; intros prev g; simpl.
  - rewrite app_nil_r. destruct g; reflexivity.
  - rewrite IH. unfold Single.drawLine, canvas.line.
    rewrite spreadLine_asPartial.
    cbn [Single.with_canvas Single._canvas Single._transform Single._size
         Single._xRange Single._yRange].
    rewrite <- app_assoc. reflexivity.
Qed.

Lemma Single_plot_state (points : list Point) (lineStyle : PartialLineStyle)
      (g : Single.Graph) :
  Single.plot points lineStyle g
  = Single.with_canvas g
      (Single._canvas g ++
       map (segment (Single._transform g)
                    (spreadLine (mkLineStyle "#308c2c"%string 1) lineStyle))
           (adjacent points)).
Proof.
  unfold Single.plot.
  destruct points as [|p points].
  - simpl. rewrite app_nil_r. destruct g; reflexivity.
  - apply Single_plot_loop_from.
Qed.

Lemma plotted_length (t : Transform) (styling : LineStyle) (points : list Point) :
  length (plotted t styling points) = Nat.pred (length points).
Proof.
  unfold plotted. rewrite length_map. apply adjacent_length.
Qed.

Lemma plotted_nth_error (t : Transform) (styling : LineStyle)
      (points : list Point) (i : nat) (p q : Point) :
  nth_error points i = Some p -> nth_error points (S i) = Some q ->
  nth_error (plotted t styling points) i
  = Some (canvas.Line (transformPoint t p) (transformPoint t q) styling).
Proof.
  intros Hp Hq. unfold plotted.
  rewrite nth_error_map.
  rewrite (adjacent_nth_error points i p q Hp Hq).
  reflexivity.
Qed.

(** C3.  [plot] strokes one segment per pair of consecutive points and
    nothing else: N - 1 segments for N >= 2 points, the [i]-th joining the
    transformed [i]-th point to the transformed next one, in the order of
    the sequence, and no segment for an empty or a one-point sequence.  The
    dual-surface variant strokes them onto the cleared foreground, the
    single-canvas variant onto its canvas. *)
Theorem plot_strokes_consecutive_pairs
        (points : list Point) (lineStyle : PartialLineStyle)
        (gd : Dual.Graph) (gs : Single.Graph) :
  Dual._foreground (Dual.plot points lineStyle gd)
  = Dual._foreground gd ++
    canvas.Clear ::
    plotted (Dual._transform gd)
            (spreadLine (mkLineStyle Dual.PLOT_LINE_COLOR 1) lineStyle) points /\
  canvas.shown (Dual._foreground (Dual.plot points lineStyle gd))
  = plotted (Dual._transform gd)
            (spreadLine (mkLineStyle Dual.PLOT_LINE_COLOR 1) lineStyle) points /\
  Single._canvas (Single.plot points lineStyle gs)
  = Single._canvas gs ++
    plotted (Single._transform gs)
            (spreadLine (mkLineStyle "#308c2c"%string 1) lineStyle) points /\
  (forall (t : Transform) (styling : LineStyle),
      length (plotted t styling points) = Nat.pred (length points) /\
      canvas.segments (plotted t styling points) = plotted t styling points /\
      ((2 <= length points)%nat ->
       length (plotted t styling points) = (length points - 1)%nat) /\
      ((length points <= 1)%nat -> plotted t styling points = []) /\
      (forall (i : nat) (p q : Point),
          nth_error points i = Some p -> nth_error points (S i) = Some q ->
          nth_error (plotted t styling points) i
          = Some (canvas.Line (transformPoint t p) (transformPoint t q) styling))).
Proof.
  split.
  { rewrite Dual_plot_state. reflexivity. }
  split.
  { rewrite Dual_plot_state. cbn [Dual._foreground Dual.with_foreground].
    apply shown_after_clear. apply segments_are_lines. }
  split.
  { rewrite Single_plot_state. reflexivity. }
  intros t styling.
  split; [apply plotted_length|].
  split.
  { unfold canvas.segments, plotted.
    apply forallb_filter_id. apply segments_are_lines. }
  split.
  { intro HN. rewrite plotted_length. lia. }
  split.
  { intro HN. apply length_zero_iff_nil. rewrite plotted_length. lia. }
  intros i p q. apply plotted_nth_error.
Qed.

(** C7, as the code has it.  In the dual-surface variant every call to
    [plot] first clears the foreground and then strokes its segments onto the
    foreground only: the foreground receives one [Clear] followed by line
    calls, and the background is left as it was.  The single-canvas variant
    has one surface; its [plot] clears nothing and strokes its segments onto
    that canvas, after whatever the canvas already received. *)
Theorem plot_touches_the_plot_surface
        (points : list Point) (lineStyle : PartialLineStyle)
        (gd : Dual.Graph) (gs : Single.Graph) :
  (exists strokes : canvas.Canvas,
      Dual._foreground (Dual.plot points lineStyle gd)
      = Dual._foreground gd ++ canvas.Clear :: strokes /\
      forallb canvas.is_line strokes = true /\
      canvas.shown (Dual._foreground (Dual.plot points lineStyle gd)) = strokes) /\
  Dual._background (Dual.plot points lineStyle gd) = Dual._background gd /\
  (exists strokes : canvas.Canvas,
      Single._canvas (Single.plot points lineStyle gs)
      = Single._canvas gs ++ strokes /\
      forallb canvas.is_line strokes = true).
Proof.
  split.
  { eexists. rewrite Dual_plot_state. cbn [Dual._foreground Dual.with_foreground].
    split; [reflexivity|].
    split; [apply segments_are_lines|].
    apply shown_after_clear. apply segments_are_lines. }
  split.
  { rewrite Dual_plot_state. reflexivity. }
  eexists. rewrite Single_plot_state. cbn [Single._canvas Single.with_canvas].
  split; [reflexivity | apply segments_are_lines].
Qed.

(** C7 fails on the single-canvas variant: on a chart of 600 by 600 whose
    x axis has been drawn, [plot] of two points leaves the axis line in
    place, receives no [Clear], and adds its segment to the same canvas. *)
Lemma single_canvas_plot_clears_nothing :
  reduced
    (Single._canvas
       (Single.plot [mkPoint 0 0; mkPoint 120 30] noLineStyle
          (Single.drawXAxis noLineStyle (Single.constructor (mkSize 600 600)))))
  = [ canvas.Line (mkPoint 30 570) (mkPoint 570 570)
                  (mkLineStyle "#FF0000"%string 2);
      canvas.Line (mkPoint 30 570) (mkPoint 138 543)
                  (mkLineStyle "#308c2c"%string 1) ] /\
  existsb is_clear
    (Single._canvas
       (Single.plot [mkPoint 0 0; mkPoint 120 30] noLineStyle
          (Single.drawXAxis noLineStyle (Single.constructor (mkSize 600 600)))))
  = false.
Proof.
  split; vm_compute; reflexivity.
Qed.

(** ** The axes *)

Lemma Qlt_bool_not_le (u v : number) : Qlt_bool u v = negb (Qle_bool v u).
Proof.
  unfold Qlt_bool, Qle_bool, Qcompare, Z.leb.
  rewrite (Z.compare_antisym (Qnum u * QDen v) (Qnum v * QDen u)).
  destruct (Qnum u * QDen v ?= Qnum v * QDen u)%Z; reflexivity.
Qed.

(** The test the single-canvas variant writes out is the one [inRange]
    makes. *)
Lemma Single_axisPosition (r : Range) : Single.axisPosition r = axisAt r.
Proof.
  unfold Single.axisPosition, axisAt, inRange.
  rewrite !Qlt_bool_not_le.
  destruct (Qle_bool (min r) 0), (Qle_bool 0 (max r)); reflexivity.
Qed.

Lemma inRange_iff (v : number) (r : Range) :
  inRange v r = true <-> min r <= v /\ v <= max r.
Proof.
  unfold inRange.
  rewrite andb_true_iff, !Qle_bool_iff. reflexivity.
Qed.

Lemma axisAt_within (r : Range) :
  min r <= 0 /\ 0 <= max r -> axisAt r = 0.
Proof.
  intro H. apply inRange_iff in H.
  unfold axisAt. rewrite H. reflexivity.
Qed.

Lemma axisAt_outside (r : Range) :
  ~ (min r <= 0 /\ 0 <= max r) -> axisAt r = min r.
Proof.
  intro H. unfold axisAt.
  destruct (inRange 0 r) eqn:E; [|reflexivity].
  apply inRange_iff in E. contradiction.
Qed.

(** C5.  [drawXAxis] draws exactly one line, from [{x: xRange.min}] to
    [{x: xRange.max}], at logical y = 0 when 0 lies within yRange and at
    y = yRange.min when it does not (y = 0 for [-50, 50], y = 10 for
    [10, 50]); [drawYAxis] draws exactly one line, from [{y: yRange.min}] to
    [{y: yRange.max}], at x = 0 or at x = xRange.min in the same way.  Both
    variants agree; the dual-surface variant draws on the background. *)
Theorem axes_cross_at_zero_or_at_the_minimum
        (lineStyle : PartialLineStyle) (gd : Dual.Graph) (gs : Single.Graph) :
  Dual._background (Dual.drawXAxis lineStyle gd)
  = Dual._background gd ++
    [ canvas.Line
        (transformPoint (Dual._transform gd)
           (mkPoint (min (Dual._xRange gd)) (axisAt (Dual._yRange gd))))
        (transformPoint (Dual._transform gd)
           (mkPoint (max (Dual._xRange gd)) (axisAt (Dual._yRange gd))))
        (spreadLine (mkLineStyle Dual.AXIS_LINE_COLOR 2) lineStyle) ] /\
  Dual._foreground (Dual.drawXAxis lineStyle gd) = Dual._foreground gd /\
  Dual._background (Dual.drawYAxis lineStyle gd)
  = Dual._background gd ++
    [ canvas.Line
        (transformPoint (Dual._transform gd)
           (mkPoint (axisAt (Dual._xRange gd)) (min (Dual._yRange gd))))
        (transformPoint (Dual._transform gd)
           (mkPoint (axisAt (Dual._xRange gd)) (max (Dual._yRange gd))))
        (spreadLine (mkLineStyle Dual.AXIS_LINE_COLOR 2) lineStyle) ] /\
  Dual._foreground (Dual.drawYAxis lineStyle gd) = Dual._foreground gd /\
  Single._canvas (Single.drawXAxis lineStyle gs)
  = Single._canvas gs ++
    [ canvas.Line
        (transformPoint (Single._transform gs)
           (mkPoint (min (Single._xRange gs)) (axisAt (Single._yRange gs))))
        (transformPoint (Single._transform gs)
           (mkPoint (max (Single._xRange gs)) (axisAt (Single._yRange gs))))
        (spreadLine (mkLineStyle "#FF0000"%string 2) lineStyle) ] /\
  Single._canvas (Single.drawYAxis lineStyle gs)
  = Single._canvas gs ++
    [ canvas.Line
        (transformPoint (Single._transform gs)
           (mkPoint (axisAt (Single._xRange gs)) (min (Single._yRange gs))))
        (transformPoint (Single._transform gs)
           (mkPoint (axisAt (Single._xRange gs)) (max (Single._yRange gs))))
        (spreadLine (mkLineStyle "#FF0000"%string 2) lineStyle) ] /\
  (forall r : Range,
      (min r <= 0 /\ 0 <= max r -> axisAt r = 0) /\
      (~ (min r <= 0 /\ 0 <= max r) -> axisAt r = min r)) /\
  axisAt (mkRange (-50) 50) = 0 /\
  axisAt (mkRange 10 50) = 10.
Proof.
  split; [reflexivity|].
  split; [reflexivity|].
  split; [reflexivity|].
  split; [reflexivity|].
  split.
  { unfold Single.drawXAxis, Single.drawLine, canvas.line.
    rewrite spreadLine_asPartial, Single_axisPosition. reflexivity. }
  split.
  { unfold Single.drawYAxis, Single.drawLine, canvas.line.
    rewrite spreadLine_asPartial, Single_axisPosition. reflexivity. }
  split.
  { intro r. split; [apply axisAt_within | apply axisAt_outside]. }
  split; reflexivity.
Qed.

(** ** [drawGrid] *)

Lemma Dual_gridVertical_fold (g : Dual.Graph) (styling : LineStyle)
      (xs : list number) (context : canvas.Canvas) :
  fold_left (Dual.gridVertical g styling) xs context
  = context ++ map (vertical (Dual._transform g) (Dual._yRange g) styling) xs.
Proof.
  revert context.
  induction xs as [|v xs IH]; intro context; simpl.
  - symmetry; apply app_nil_r.
  - rewrite IH. unfold Dual.gridVertical, canvas.line.
    rewrite <- app_assoc. reflexivity.
Qed.

Lemma Dual_gridHorizontal_fold (g : Dual.Graph) (styling : LineStyle)
      (ys : list number) (context : canvas.Canvas) :
  fold_left (Dual.gridHorizontal g styling) ys context
  = context ++ map (horizontal (Dual._transform g) (Dual._xRange g) styling) ys.
Proof.
  revert context.
  induction ys as [|v ys IH]; intro context; simpl.
  - symmetry; apply app_nil_r.
  - rewrite IH. unfold Dual.gridHorizontal, canvas.line.
    rewrite <- app_assoc. reflexivity.
Qed.

Lemma Single_gridVertical_fold (styling : LineStyle) (xs : list number)
      (g : Single.Graph) :
  fold_left (Single.gridVertical styling) xs g
  = Single.with_canvas g
      (Single._canvas g ++
       map (vertical (Single._transform g) (Single._yRange g) styling) xs).
Proof.
  revert g.
  induction xs as [|v xs IH]; intro g; simpl.
  - rewrite app_nil_r. destruct g; reflexivity.
  - rewrite IH. unfold Single.gridVertical, Single.drawLine, canvas.line.
    rewrite spreadLine_asPartial.
    cbn [Single.with_canvas Single._canvas Single._transform Single._size
         Single._xRange Single._yRange].
    rewrite <- app_assoc. reflexivity.
Qed.

Lemma Single_gridHorizontal_fold (styling : LineStyle) (ys : list number)
      (g : Single.Graph) :
  fold_left (Single.gridHorizontal styling) ys g
  = Single.with_canvas g
      (Single._canvas g ++
       map (horizontal (Single._transform g) (Single._xRange g) styling) ys).
Proof.
  revert g.
  induction ys as [|v ys IH]; intro g; simpl.
  - rewrite app_nil_r. destruct g; reflexivity.
  - rewrite IH. unfold Single.gridHorizontal, Single.drawLine, canvas.line.
    rewrite spreadLine_asPartial.
    cbn [Single.with_canvas Single._canvas Single._transform Single._size
         Single._xRange Single._yRange].
    rewrite <- app_assoc. reflexivity.
Qed.

(** What [drawGrid] returns once both generators have ended. *)
Lemma Dual_drawGrid_state (fuel : nat) (xStep yStep : number)
      (lineStyle : PartialLineStyle) (g : Dual.Graph) (xs ys : list number) :
  iterator.range fuel (min (Dual._xRange g)) (max (Dual._xRange g)) xStep = Some xs ->
  iterator.range fuel (min (Dual._yRange g)) (max (Dual._yRange g)) yStep = Some ys ->
  Dual.drawGrid fuel xStep yStep lineStyle g
  = Some (Dual.with_background g
            (Dual._background g ++
             map (vertical (Dual._transform g) (Dual._yRange g)
                    (spreadLine (mkLineStyle Dual.GRID_LINE_COLOR 1) lineStyle)) xs ++
             map (horizontal (Dual._transform g) (Dual._xRange g)
                    (spreadLine (mkLineStyle Dual.GRID_LINE_COLOR 1) lineStyle)) ys)).
Proof.
  intros Hx Hy. unfold Dual.drawGrid.
  rewrite Hx.
  cbn [Dual.with_background Dual._background Dual._foreground Dual._size
       Dual._transform Dual._xRange Dual._yRange].
  rewrite Hy.
  rewrite Dual_gridHorizontal_fold, Dual_gridVertical_fold.
  cbn [Dual.with_background Dual._background Dual._foreground Dual._size
       Dual._transform Dual._xRange Dual._yRange].
  rewrite <- app_assoc. reflexivity.
Qed.

Lemma Single_drawGrid_state (fuel : nat) (xStep yStep : number)
      (lineStyle : PartialLineStyle) (g : Single.Graph) (xs ys : list number) :
  iterator.range fuel (min (Single._xRange g)) (max (Single._xRange g)) xStep = Some xs ->
  iterator.range fuel (min (Single._yRange g)) (max (Single._yRange g)) yStep = Some ys ->
  Single.drawGrid fuel xStep yStep lineStyle g
  = Some (Single.with_canvas g
            (Single._canvas g ++
             map (vertical (Single._transform g) (Single._yRange g)
                    (spreadLine (mkLineStyle "#88abcf"%string 1) lineStyle)) xs ++
             map (horizontal (Single._transform g) (Single._xRange g)
                    (spreadLine (mkLineStyle "#88abcf"%string 1) lineStyle)) ys)).
Proof.
  intros Hx Hy. unfold Single.drawGrid.
  rewrite Hx, Single_gridVertical_fold.
  cbn [Single.with_canvas Single._canvas Single._size Single._transform
       Single._xRange Single._yRange].
  rewrite Hy, Single_gridHorizontal_fold.
  cbn [Single.with_canvas Single._canvas Single._size Single._transform
       Single._xRange Single._yRange].
  rewrite <- app_assoc. reflexivity.
Qed.

(** X12.  Whatever ticks the generator yields for the two steps, when both
    loops end [drawGrid] has added exactly one line per tick and nothing
    else: first, in the order of the x ticks, the line from the transformed
    [{x: tick, y: yRange.min}] to the transformed [{x: tick, y: yRange.max}],
    then, in the order of the y ticks, the line from the transformed
    [{x: xRange.min, y: tick}] to the transformed [{x: xRange.max, y: tick}],
    all with the grid style (1 px, [#88abcf], overridable).  The
    dual-surface variant adds them to the background and leaves the
    foreground alone, the single-canvas variant adds them to its canvas;
    ranges, size and transform stay. *)
Theorem drawGrid_draws_a_line_per_tick_yielded
        (bg fg cv : canvas.Canvas) (sz : Size) (t : Transform) (xr yr : Range)
        (xStep yStep : number) (lineStyle : PartialLineStyle) (fuel : nat)
        (xs ys : list number) :
  iterator.range fuel (min xr) (max xr) xStep = Some xs ->
  iterator.range fuel (min yr) (max yr) yStep = Some ys ->
  Dual.drawGrid fuel xStep yStep lineStyle (Dual.mkGraph bg fg sz t xr yr)
  = Some (Dual.mkGraph
            (bg ++
             map (vertical t yr
                    (spreadLine (mkLineStyle "#88abcf"%string 1) lineStyle))
                 xs ++
             map (horizontal t xr
                    (spreadLine (mkLineStyle "#88abcf"%string 1) lineStyle))
                 ys)
            fg sz t xr yr) /\
  Single.drawGrid fuel xStep yStep lineStyle (Single.mkGraph cv sz t xr yr)
  = Some (Single.mkGraph
            (cv ++
             map (vertical t yr
                    (spreadLine (mkLineStyle "#88abcf"%string 1) lineStyle))
                 xs ++
             map (horizontal t xr
                    (spreadLine (mkLineStyle "#88abcf"%string 1) lineStyle))
                 ys)
            sz t xr yr) /\
  length (map (vertical t yr
                 (spreadLine (mkLineStyle "#88abcf"%string 1) lineStyle)) xs)
  = length xs /\
  length (map (horizontal t xr
                 (spreadLine (mkLineStyle "#88abcf"%string 1) lineStyle)) ys)
  = length ys.
Proof.
  intros Hx Hy.
  split.
  { apply (Dual_drawGrid_state fuel xStep yStep lineStyle
             (Dual.mkGraph bg fg sz t xr yr)); assumption. }
  split.
  { apply (Single_drawGrid_state fuel xStep yStep lineStyle
             (Single.mkGraph cv sz t xr yr)); assumption. }
  split; apply length_map.
Qed.

Lemma drawGrid_draws_a_line_per_tick_yielded_on_100 :
  iterator.range 4 0 100 50 = Some [0; 50; 100] /\
  Dual.drawGrid 4 50 50 noLineStyle
    (Dual.mkGraph [] [] (mkSize 100 100) geometry.transform.new
                  (mkRange 0 100) (mkRange 0 100))
  = Some (Dual.mkGraph
            ([] ++
             map (vertical geometry.transform.new (mkRange 0 100)
                    (spreadLine (mkLineStyle "#88abcf"%string 1) noLineStyle))
                 [0; 50; 100] ++
             map (horizontal geometry.transform.new (mkRange 0 100)
                    (spreadLine (mkLineStyle "#88abcf"%string 1) noLineStyle))
                 [0; 50; 100])
            [] (mkSize 100 100) geometry.transform.new
            (mkRange 0 100) (mkRange 0 100)).
Proof.
  assert (Hx : iterator.range 4 (min (mkRange 0 100)) (max (mkRange 0 100)) 50
               = Some [0; 50; 100]) by reflexivity.
  split; [reflexivity|].
  exact (proj1 (drawGrid_draws_a_line_per_tick_yielded
                  [] [] [] (mkSize 100 100) geometry.transform.new
                  (mkRange 0 100) (mkRange 0 100) 50 50 noLineStyle 4
                  [0; 50; 100] [0; 50; 100] Hx Hx)).
Defined.

(** ** The frame of the drawing calls *)

Lemma sameMapping_refl (g : Dual.Graph) : sameMapping g g.
Proof. repeat split. Qed.

Lemma sameMapping_trans (g1 g2 g3 : Dual.Graph) :
  sameMapping g1 g2 -> sameMapping g2 g3 -> sameMapping g1 g3.
Proof.
  unfold sameMapping.
  intros [Hx [Hy [Hs Ht]]] [Hx' [Hy' [Hs' Ht']]].
  repeat split; congruence.
Qed.

Lemma with_background_sameMapping (g : Dual.Graph) (cv : canvas.Canvas) :
  sameMapping g (Dual.with_background g cv).
Proof. repeat split. Qed.

Lemma with_foreground_sameMapping (g : Dual.Graph) (cv : canvas.Canvas) :
  sameMapping g (Dual.with_foreground g cv).
Proof. repeat split. Qed.

Create HintDb frame.

#[local] Hint Resolve sameMapping_refl with_background_sameMapping
  with_foreground_sameMapping : frame.

Lemma draw_sameMapping (fuel : nat) (k : Drawing) (g g' : Dual.Graph) :
  draw fuel k g = Some g' -> sameMapping g g'.
Proof.
  destruct k; simpl.
  - intro H. injection H as <-. unfold Dual.plot.
    apply sameMapping_trans with (Dual.with_foreground g (canvas.clear (Dual._foreground g)));
      auto with frame.
  - unfold Dual.drawXLabels.
    destruct (iterator.range fuel _ _ step); [|discriminate].
    intro H. injection H as <-. auto with frame.
  - unfold Dual.drawYLabels.
    destruct (iterator.range fuel _ _ step); [|discriminate].
    intro H. injection H as <-. auto with frame.
  - unfold Dual.drawGrid.
    destruct (iterator.range fuel _ _ xStep); [|discriminate].
    match goal with
    | |- context [Dual.with_background g ?cv] =>
        set (g1 := Dual.with_background g cv)
    end.
    destruct (iterator.range fuel _ _ yStep); [|discriminate].
    intro H. injection H as <-.
    apply sameMapping_trans with g1; subst g1; auto with frame.
  - intro H. injection H as <-. unfold Dual.drawXAxis. auto with frame.
  - intro H. injection H as <-. unfold Dual.drawYAxis. auto with frame.
Qed.

(** C10.  Every drawing call ([plot], [drawGrid], [drawXAxis], [drawYAxis],
    [drawXLabels], [drawYLabels]) that returns leaves xRange, yRange, the
    size and the transform matrix of the chart as they were, and so does any
    chain of drawing calls: between two range updates every call sees the
    same transform. *)
Theorem drawing_leaves_the_mapping
        (fuel : nat) (calls : list Drawing) (g g' : Dual.Graph) :
  drawAll fuel calls g = Some g' ->
  Dual._xRange g' = Dual._xRange g /\
  Dual._yRange g' = Dual._yRange g /\
  Dual._size g' = Dual._size g /\
  Dual._transform g' = Dual._transform g.
Proof.
  revert g.
  induction calls as [|k calls IH]; intros g H; simpl in H.
  - injection H as <-. apply sameMapping_refl.
  - destruct (draw fuel k g) as [g1|] eqn:E; [|discriminate].
    apply sameMapping_trans with g1.
    + apply (draw_sameMapping fuel k); assumption.
    + apply IH; assumption.
Qed.

(** The chain of the README on a chart of 600 by 600. *)
Lemma drawing_leaves_the_mapping_in_the_readme :
  exists g' : Dual.Graph,
    drawAll 14
      [ DrawGrid 50 50 noLineStyle;
        DrawXAxis noLineStyle;
        DrawYAxis noLineStyle;
        DrawYLabels 50 noTextStyle;
        DrawXLabels 100 noTextStyle;
        Plot [mkPoint 0 0; mkPoint 120 30; mkPoint 320 300] noLineStyle ]
      (Dual.constructor (mkSize 600 600))
    = Some g' /\
    Dual._xRange g' = Dual._xRange (Dual.constructor (mkSize 600 600)) /\
    Dual._yRange g' = Dual._yRange (Dual.constructor (mkSize 600 600)) /\
    Dual._size g' = Dual._size (Dual.constructor (mkSize 600 600)) /\
    Dual._transform g' = Dual._transform (Dual.constructor (mkSize 600 600)).
Proof.
  eexists. split; [vm_compute; reflexivity|].
  apply (drawing_leaves_the_mapping 14
           [ DrawGrid 50 50 noLineStyle;
             DrawXAxis noLineStyle;
             DrawYAxis noLineStyle;
             DrawYLabels 50 noTextStyle;
             DrawXLabels 100 noTextStyle;
             Plot [mkPoint 0 0; mkPoint 120 30; mkPoint 320 300] noLineStyle ]
           (Dual.constructor (mkSize 600 600))).
  vm_compute. reflexivity.
Defined.

(** ** The labels *)

Lemma fold_left_append {A : Type} (call : A -> canvas.Call) (l : list A)
      (context : canvas.Canvas) :
  fold_left (fun cv v => cv ++ [call v]) l context = context ++ map call l.
Proof.
  revert context.
  induction l as [|v l IH]; intro context; simpl.
  - symmetry; apply app_nil_r.
  - rewrite IH, <- app_assoc. reflexivity.
Qed.

Lemma spreadText_asPartial (base s : TextStyle) :
  spreadText base (asPartialText s) = s.
Proof. destruct s; reflexivity. Qed.

Lemma Dual_drawXLabels_state (fuel : nat) (step : number)
      (textStyle : PartialTextStyle) (g : Dual.Graph) (xs : list number) :
  iterator.range fuel (min (Dual._xRange g)) (max (Dual._xRange g)) step = Some xs ->
  Dual.drawXLabels fuel step textStyle g
  = Some (Dual.with_background g
            (Dual._background g ++
             map (xLabelDual (Dual._transform g) (Dual._yRange g)
                    (spreadText (mkTextStyle "10pt Arial" "#000000" "center")
                                textStyle))
                 xs)).
Proof.
  intro Hx. unfold Dual.drawXLabels. rewrite Hx.
  do 2 f_equal.
  apply (fold_left_append
           (xLabelDual (Dual._transform g) (Dual._yRange g)
              (spreadText (mkTextStyle "10pt Arial" "#000000" "center") textStyle))).
Qed.

Lemma Dual_drawYLabels_state (fuel : nat) (step : number)
      (textStyle : PartialTextStyle) (g : Dual.Graph) (ys : list number) :
  iterator.range fuel (min (Dual._yRange g)) (max (Dual._yRange g)) step = Some ys ->
  Dual.drawYLabels fuel step textStyle g
  = Some (Dual.with_background g
            (Dual._background g ++
             map (yLabelDual (Dual._transform g) (Dual._xRange g)
                    (spreadText Dual.DEFAULT_TEXT_STYLE textStyle))
                 ys)).
Proof.
  intro Hy. unfold Dual.drawYLabels. rewrite Hy.
  do 2 f_equal.
  apply (fold_left_append
           (yLabelDual (Dual._transform g) (Dual._xRange g)
              (spreadText Dual.DEFAULT_TEXT_STYLE textStyle))).
Qed.

Lemma Single_xLabels_fold (styling : TextStyle) (level : number)
      (xs : list number) (g : Single.Graph) :
  fold_left
    (fun g v =>
       Single.drawText v
         (mkPoint
            (x (transformPoint (Single._transform g) (mkPoint v level)) - 5)
            (y (transformPoint (Single._transform g) (mkPoint v level)) + 15))
         (asPartialText styling) g)
    xs g
  = Single.with_canvas g
      (Single._canvas g ++
       map (fun v =>
              canvas.Text v
                (mkPoint
                   (x (transformPoint (Single._transform g) (mkPoint v level)) - 5)
                   (y (transformPoint (Single._transform g) (mkPoint v level)) + 15))
                styling)
           xs).
Proof.
  revert g.
  induction xs as [|v xs IH]; intro g; simpl.
  - rewrite app_nil_r. destruct g; reflexivity.
  - rewrite IH. unfold Single.drawText, canvas.text.
    rewrite spreadText_asPartial.
    cbn [Single.with_canvas Single._canvas Single._transform Single._size
         Single._xRange Single._yRange].
    rewrite <- app_assoc. reflexivity.
Qed.

Lemma Single_yLabels_fold (styling : TextStyle) (level : number)
      (ys : list number) (g : Single.Graph) :
  fold_left
    (fun g v =>
       Single.drawText v
         (mkPoint
            (x (transformPoint (Single._transform g) (mkPoint level v)) - 30)
            (y (transformPoint (Single._transform g) (mkPoint level v)) + 5))
         (asPartialText styling) g)
    ys g
  = Single.with_canvas g
      (Single._canvas g ++
       map (fun v =>
              canvas.Text v
                (mkPoint
                   (x (transformPoint (Single._transform g) (mkPoint level v)) - 30)
                   (y (transformPoint (Single._transform g) (mkPoint level v)) + 5))
                styling)
           ys).
Proof.
  revert g.
  induction ys as [|v ys IH]; intro g; simpl.
  - rewrite app_nil_r. destruct g; reflexivity.
  - rewrite IH. unfold Single.drawText, canvas.text.
    rewrite spreadText_asPartial.
    cbn [Single.with_canvas Single._canvas Single._transform Single._size
         Single._xRange Single._yRange].
    rewrite <- app_assoc. reflexivity.
Qed.

Lemma Single_drawXLabels_state (fuel : nat) (step : number)
      (textStyle : PartialTextStyle) (g : Single.Graph) (xs : list number) :
  iterator.range fuel (min (Single._xRange g)) (max (Single._xRange g)) step = Some xs ->
  Single.drawXLabels fuel step textStyle g
  = Some (Single.with_canvas g
            (Single._canvas g ++
             map (xLabelSingle (Single._transform g) (Single._yRange g)
                    (spreadText Single.DEFAULT_TEXT_STYLE textStyle))
                 xs)).
Proof.
  intro Hx. unfold Single.drawXLabels. rewrite Hx.
  rewrite Single_axisPosition.
  f_equal.
  apply (Single_xLabels_fold
           (spreadText Single.DEFAULT_TEXT_STYLE textStyle)
           (axisAt (Single._yRange g)) xs g).
Qed.

Lemma Single_drawYLabels_state (fuel : nat) (step : number)
      (textStyle : PartialTextStyle) (g : Single.Graph) (ys : list number) :
  iterator.range fuel (min (Single._yRange g)) (max (Single._yRange g)) step = Some ys ->
  Single.drawYLabels fuel step textStyle g
  = Some (Single.with_canvas g
            (Single._canvas g ++
             map (yLabelSingle (Single._transform g) (Single._xRange g)
                    (spreadText Single.DEFAULT_TEXT_STYLE textStyle))
                 ys)).
Proof.
  intro Hy. unfold Single.drawYLabels. rewrite Hy.
  rewrite Single_axisPosition.
  f_equal.
  apply (Single_yLabels_fold
           (spreadText Single.DEFAULT_TEXT_STYLE textStyle)
           (axisAt (Single._xRange g)) ys g).
Qed.

(** X1.  Whatever ticks the generator yields for the step, [drawXLabels]
    draws one text per x tick and [drawYLabels] one text per y tick, in the
    order of the ticks and each showing the value of its tick, anchored at
    the pixel of the tick on the axis (the axis being where [drawXAxis] and
    [drawYAxis] put it) and moved by a fixed nudge: (0, +15) and (-5, +5) in
    the dual-surface variant, which draws on the background and leaves the
    foreground alone, (-5, +15) and (-30, +5) in the single-canvas variant.
    The default alignment is centred for the x labels and right for the y
    labels of the dual-surface variant, left in the single-canvas one. *)
Theorem labels_are_drawn_at_the_ticks
        (bg fg cv : canvas.Canvas) (sz : Size) (t : Transform) (xr yr : Range)
        (xStep yStep : number) (textStyle : PartialTextStyle) (fuel : nat)
        (xs ys : list number) :
  iterator.range fuel (min xr) (max xr) xStep = Some xs ->
  iterator.range fuel (min yr) (max yr) yStep = Some ys ->
  Dual.drawXLabels fuel xStep textStyle (Dual.mkGraph bg fg sz t xr yr)
  = Some (Dual.mkGraph
            (bg ++
             map (xLabelDual t yr
                    (spreadText (mkTextStyle "10pt Arial" "#000000" "center")
                                textStyle))
                 xs)
            fg sz t xr yr) /\
  Dual.drawYLabels fuel yStep textStyle (Dual.mkGraph bg fg sz t xr yr)
  = Some (Dual.mkGraph
            (bg ++
             map (yLabelDual t xr
                    (spreadText (mkTextStyle "10pt Arial" "#000000" "right")
                                textStyle))
                 ys)
            fg sz t xr yr) /\
  Single.drawXLabels fuel xStep textStyle (Single.mkGraph cv sz t xr yr)
  = Some (Single.mkGraph
            (cv ++
             map (xLabelSingle t yr
                    (spreadText (mkTextStyle "10pt Arial" "#000000" "left")
                                textStyle))
                 xs)
            sz t xr yr) /\
  Single.drawYLabels fuel yStep textStyle (Single.mkGraph cv sz t xr yr)
  = Some (Single.mkGraph
            (cv ++
             map (yLabelSingle t xr
                    (spreadText (mkTextStyle "10pt Arial" "#000000" "left")
                                textStyle))
                 ys)
            sz t xr yr).
Proof.
  intros Hx Hy.
  split.
  { apply (Dual_drawXLabels_state fuel xStep textStyle
             (Dual.mkGraph bg fg sz t xr yr)); assumption. }
  split.
  { apply (Dual_drawYLabels_state fuel yStep textStyle
             (Dual.mkGraph bg fg sz t xr yr)); assumption. }
  split.
  { apply (Single_drawXLabels_state fuel xStep textStyle
             (Single.mkGraph cv sz t xr yr)); assumption. }
  apply (Single_drawYLabels_state fuel yStep textStyle
           (Single.mkGraph cv sz t xr yr)); assumption.
Qed.

Lemma labels_are_drawn_at_the_ticks_on_100 :
  iterator.range 4 0 100 50 = Some [0; 50; 100] /\
  Dual.drawXLabels 4 50 noTextStyle
    (Dual.mkGraph [] [] (mkSize 100 100) geometry.transform.new
                  (mkRange 0 100) (mkRange 0 100))
  = Some (Dual.mkGraph
            ([] ++
             map (xLabelDual geometry.transform.new (mkRange 0 100)
                    (spreadText (mkTextStyle "10pt Arial" "#000000" "center")
                                noTextStyle))
                 [0; 50; 100])
            [] (mkSize 100 100) geometry.transform.new
            (mkRange 0 100) (mkRange 0 100)).
Proof.
  assert (Hx : iterator.range 4 (min (mkRange 0 100)) (max (mkRange 0 100)) 50
               = Some [0; 50; 100]) by reflexivity.
  assert (Hy : iterator.range 4 (min (mkRange 0 100)) (max (mkRange 0 100)) 50
               = Some [0; 50; 100]) by reflexivity.
  split; [reflexivity|].
  exact (proj1 (labels_are_drawn_at_the_ticks
                  [] [] [] (mkSize 100 100) geometry.transform.new
                  (mkRange 0 100) (mkRange 0 100) 50 50 noTextStyle 4
                  [0; 50; 100] [0; 50; 100] Hx Hy)).
Defined.

(** ** Chains of drawing calls *)

Lemma no_clear_map {A : Type} (call : A -> canvas.Call) (l : list A) :
  (forall v : A, is_clear (call v) = false) ->
  existsb is_clear (map call l) = false.
Proof.
  intro Hcall.
  induction l as [|v l IH]; simpl; [reflexivity|].
  rewrite Hcall, IH. reflexivity.
Qed.

Lemma no_clear_app (l1 l2 : canvas.Canvas) :
  existsb is_clear l1 = false -> existsb is_clear l2 = false ->
  existsb is_clear (l1 ++ l2) = false.
Proof.
  intros H1 H2. rewrite existsb_app, H1, H2. reflexivity.
Qed.

(** What one drawing call of the dual-surface chart adds to the background
    holds no [Clear]. *)
Lemma draw_background (fuel : nat) (k : Drawing) (g g' : Dual.Graph) :
  draw fuel k g = Some g' ->
  exists added : canvas.Canvas,
    Dual._background g' = Dual._background g ++ added /\
    existsb is_clear added = false.
Proof.
  destruct k; simpl.
  - intro H. injection H as <-. exists [].
    rewrite Dual_plot_state, app_nil_r. split; reflexivity.
  - destruct (iterator.range fuel (min (Dual._xRange g)) (max (Dual._xRange g)) step)
      as [xs|] eqn:Hx.
    + rewrite (Dual_drawXLabels_state fuel step textStyle g xs Hx).
      intro H. injection H as <-. eexists. split; [reflexivity|].
      apply no_clear_map. reflexivity.
    + unfold Dual.drawXLabels. rewrite Hx. discriminate.
  - destruct (iterator.range fuel (min (Dual._yRange g)) (max (Dual._yRange g)) step)
      as [ys|] eqn:Hy.
    + rewrite (Dual_drawYLabels_state fuel step textStyle g ys Hy).
      intro H. injection H as <-. eexists. split; [reflexivity|].
      apply no_clear_map. reflexivity.
    + unfold Dual.drawYLabels. rewrite Hy. discriminate.
  - destruct (iterator.range fuel (min (Dual._xRange g)) (max (Dual._xRange g)) xStep)
      as [xs|] eqn:Hx;
      [|unfold Dual.drawGrid; rewrite Hx; discriminate].
    destruct (iterator.range fuel (min (Dual._yRange g)) (max (Dual._yRange g)) yStep)
      as [ys|] eqn:Hy;
      [|unfold Dual.drawGrid; rewrite Hx;
        cbn [Dual.with_background Dual._yRange]; rewrite Hy; discriminate].
    rewrite (Dual_drawGrid_state fuel xStep yStep lineStyle g xs ys Hx Hy).
    intro H. injection H as <-. eexists. split; [reflexivity|].
    apply no_clear_app; apply no_clear_map; reflexivity.
  - intro H. injection H as <-. eexists. split; reflexivity.
  - intro H. injection H as <-. eexists. split; reflexivity.
Qed.

(** Only [plot] touches the foreground. *)
Lemma draw_foreground (fuel : nat) (k : Drawing) (g g' : Dual.Graph) :
  draw fuel k g = Some g' ->
  match k with
  | Plot points lineStyle =>
      Dual._foreground g'
      = Dual._foreground g ++
        canvas.Clear ::
        plotted (Dual._transform g)
                (spreadLine (mkLineStyle Dual.PLOT_LINE_COLOR 1) lineStyle) points
  | _ => Dual._foreground g' = Dual._foreground g
  end.
Proof.
  destruct k; simpl.
  - intro H. injection H as <-. rewrite Dual_plot_state. reflexivity.
  - unfold Dual.drawXLabels.
    destruct (iterator.range fuel _ _ step); [|discriminate].
    intro H. injection H as <-. reflexivity.
  - unfold Dual.drawYLabels.
    destruct (iterator.range fuel _ _ step); [|discriminate].
    intro H. injection H as <-. reflexivity.
  - unfold Dual.drawGrid.
    destruct (iterator.range fuel _ _ xStep); [|discriminate].
    cbn [Dual.with_background Dual._yRange Dual._xRange].
    destruct (iterator.range fuel _ _ yStep); [|discriminate].
    intro H. injection H as <-. reflexivity.
  - intro H. injection H as <-. reflexivity.
  - intro H. injection H as <-. reflexivity.
Qed.

Lemma drawAll_sameMapping (fuel : nat) (calls : list Drawing) :
  forall g g' : Dual.Graph,
    drawAll fuel calls g = Some g' -> sameMapping g g'.
Proof.
  induction calls as [|k calls IH]; intros g g' H; simpl in H.
  - injection H as <-. apply sameMapping_refl.
  - destruct (draw fuel k g) as [g1|] eqn:E; [|discriminate].
    apply sameMapping_trans with g1.
    + apply (draw_sameMapping fuel k); assumption.
    + apply IH; assumption.
Qed.

Lemma lastPlot_none_cons (k : Drawing) (rest : list Drawing) :
  lastPlot (k :: rest) = None ->
  lastPlot rest = None /\
  match k with
  | Plot _ _ => False
  | _ => True
  end.
Proof.
  simpl. destruct (lastPlot rest); [discriminate|].
  destruct k; intro H; try discriminate; split; auto.
Qed.

Lemma drawAll_foreground_kept (fuel : nat) (calls : list Drawing) :
  forall g g' : Dual.Graph,
    drawAll fuel calls g = Some g' -> lastPlot calls = None ->
    Dual._foreground g' = Dual._foreground g.
Proof.
  induction calls as [|k calls IH]; intros g g' H Hlast; simpl in H.
  - injection H as <-. reflexivity.
  - destruct (draw fuel k g) as [g1|] eqn:E; [|discriminate].
    apply lastPlot_none_cons in Hlast. destruct Hlast as [Hrest Hk].
    rewrite (IH g1 g' H Hrest).
    apply draw_foreground in E.
    destruct k; try assumption. contradiction.
Qed.

(** X2.  No chain of drawing calls ever clears the background of the
    dual-surface chart or takes anything away from it: what the background
    had received stays, and what is added holds no [Clear].  A chain without
    a [plot] leaves the foreground exactly as it was. *)
Theorem background_is_never_cleared
        (fuel : nat) (calls : list Drawing) (g g' : Dual.Graph) :
  drawAll fuel calls g = Some g' ->
  (exists added : canvas.Canvas,
      Dual._background g' = Dual._background g ++ added /\
      existsb is_clear added = false) /\
  (lastPlot calls = None -> Dual._foreground g' = Dual._foreground g).
Proof.
  intro H. split; [|apply (drawAll_foreground_kept fuel calls g g' H)].
  revert g H.
  induction calls as [|k calls IH]; intros g H; simpl in H.
  - injection H as <-. exists []. rewrite app_nil_r. split; reflexivity.
  - destruct (draw fuel k g) as [g1|] eqn:E; [|discriminate].
    destruct (draw_background fuel k g g1 E) as [first [Hfirst Cfirst]].
    destruct (IH g1 H) as [next [Hnext Cnext]].
    exists (first ++ next). split.
    + rewrite Hnext, Hfirst, app_assoc. reflexivity.
    + apply no_clear_app; assumption.
Qed.

(** X3.  After a chain of drawing calls the foreground of the dual-surface
    chart shows the strokes of the last [plot] of the chain and nothing
    else, whatever was plotted or drawn before. *)
Theorem last_plot_is_what_shows
        (fuel : nat) (calls : list Drawing) (g g' : Dual.Graph)
        (points : list Point) (lineStyle : PartialLineStyle) :
  drawAll fuel calls g = Some g' ->
  lastPlot calls = Some (points, lineStyle) ->
  canvas.shown (Dual._foreground g')
  = plotted (Dual._transform g)
            (spreadLine (mkLineStyle Dual.PLOT_LINE_COLOR 1) lineStyle) points.
Proof.
  revert g.
  induction calls as [|k calls IH]; intros g H Hlast; [discriminate|].
  simpl in H.
  destruct (draw fuel k g) as [g1|] eqn:E; [|discriminate].
  simpl in Hlast.
  destruct (lastPlot calls) as [found|] eqn:Hrest.
  - injection Hlast as ->.
    rewrite (IH g1 H eq_refl).
    destruct (draw_sameMapping fuel k g g1 E) as [_ [_ [_ Ht]]].
    rewrite Ht. reflexivity.
  - destruct k; try discriminate.
    injection Hlast as -> ->.
    rewrite (drawAll_foreground_kept fuel calls g1 g' H Hrest).
    apply draw_foreground in E. rewrite E.
    apply shown_after_clear. apply segments_are_lines.
Qed.

Lemma background_is_never_cleared_in_the_readme :
  exists g' : Dual.Graph,
    drawAll 14 readme (Dual.constructor (mkSize 600 600)) = Some g' /\
    (exists added : canvas.Canvas,
        Dual._background g'
        = Dual._background (Dual.constructor (mkSize 600 600)) ++ added /\
        existsb is_clear added = false) /\
    (lastPlot readme = None ->
     Dual._foreground g' = Dual._foreground (Dual.constructor (mkSize 600 600))).
Proof.
  eexists. split; [vm_compute; reflexivity|].
  apply (background_is_never_cleared 14 readme (Dual.constructor (mkSize 600 600))).
  vm_compute. reflexivity.
Defined.

Lemma last_plot_is_what_shows_in_the_readme :
  exists g' : Dual.Graph,
    drawAll 14 (readme ++ [Plot [mkPoint 0 0; mkPoint 600 600] noLineStyle])
            (Dual.constructor (mkSize 600 600)) = Some g' /\
    lastPlot (readme ++ [Plot [mkPoint 0 0; mkPoint 600 600] noLineStyle])
    = Some ([mkPoint 0 0; mkPoint 600 600], noLineStyle) /\
    canvas.shown (Dual._foreground g')
    = plotted (Dual._transform (Dual.constructor (mkSize 600 600)))
              (spreadLine (mkLineStyle Dual.PLOT_LINE_COLOR 1) noLineStyle)
              [mkPoint 0 0; mkPoint 600 600].
Proof.
  eexists. split; [vm_compute; reflexivity|].
  split; [reflexivity|].
  apply (last_plot_is_what_shows 14
           (readme ++ [Plot [mkPoint 0 0; mkPoint 600 600] noLineStyle])
           (Dual.constructor (mkSize 600 600))).
  - vm_compute. reflexivity.
  - reflexivity.
Defined.

(** ** The single-canvas chart under chains of drawing calls *)

Lemma drawSingle_grows (fuel : nat) (k : Drawing) (g g' : Single.Graph) :
  drawSingle fuel k g = Some g' ->
  exists added : canvas.Canvas,
    g' = Single.with_canvas g (Single._canvas g ++ added) /\
    existsb is_clear added = false.
Proof.
  destruct k; simpl.
  - intro H. injection H as <-. eexists.
    rewrite Single_plot_state. split; [reflexivity|].
    apply no_clear_map. reflexivity.
  - destruct (iterator.range fuel (min (Single._xRange g)) (max (Single._xRange g)) step)
      as [xs|] eqn:Hx.
    + rewrite (Single_drawXLabels_state fuel step textStyle g xs Hx).
      intro H. injection H as <-. eexists. split; [reflexivity|].
      apply no_clear_map. reflexivity.
    + unfold Single.drawXLabels. rewrite Hx. discriminate.
  - destruct (iterator.range fuel (min (Single._yRange g)) (max (Single._yRange g)) step)
      as [ys|] eqn:Hy.
    + rewrite (Single_drawYLabels_state fuel step textStyle g ys Hy).
      intro H. injection H as <-. eexists. split; [reflexivity|].
      apply no_clear_map. reflexivity.
    + unfold Single.drawYLabels. rewrite Hy. discriminate.
  - destruct (iterator.range fuel (min (Single._xRange g)) (max (Single._xRange g)) xStep)
      as [xs|] eqn:Hx;
      [|unfold Single.drawGrid; rewrite Hx; discriminate].
    destruct (iterator.range fuel (min (Single._yRange g)) (max (Single._yRange g)) yStep)
      as [ys|] eqn:Hy;
      [|unfold Single.drawGrid; rewrite Hx, Single_gridVertical_fold;
        cbn [Single.with_canvas Single._yRange]; rewrite Hy; discriminate].
    rewrite (Single_drawGrid_state fuel xStep yStep lineStyle g xs ys Hx Hy).
    intro H. injection H as <-. eexists. split; [reflexivity|].
    apply no_clear_app; apply no_clear_map; reflexivity.
  - intro H. injection H as <-. eexists. split; reflexivity.
  - intro H. injection H as <-. eexists. split; reflexivity.
Qed.

(** X4.  The single-canvas chart never loses a stroke: any chain of
    drawing calls leaves the chart it found with more calls on its canvas,
    none of them a [Clear], and with the same ranges, size and transform. *)
Theorem single_canvas_only_grows
        (fuel : nat) (calls : list Drawing) (g g' : Single.Graph) :
  drawAllSingle fuel calls g = Some g' ->
  exists added : canvas.Canvas,
    g' = Single.mkGraph (Single._canvas g ++ added) (Single._size g)
                        (Single._transform g) (Single._xRange g)
                        (Single._yRange g) /\
    existsb is_clear added = false.
Proof.
  revert g.
  induction calls as [|k calls IH]; intros g H; simpl in H.
  - injection H as <-. exists []. rewrite app_nil_r.
    split; [destruct g|]; reflexivity.
  - destruct (drawSingle fuel k g) as [g1|] eqn:E; [|discriminate].
    destruct (drawSingle_grows fuel k g g1 E) as [first [Hfirst Cfirst]].
    destruct (IH g1 H) as [next [Hnext Cnext]].
    exists (first ++ next). split.
    + rewrite Hnext, Hfirst.
      cbn [Single.with_canvas Single._canvas Single._size Single._transform
           Single._xRange Single._yRange].
      rewrite app_assoc. reflexivity.
    + apply no_clear_app; assumption.
Qed.

Lemma single_canvas_only_grows_in_the_readme :
  exists g' : Single.Graph,
    drawAllSingle 14 readme (Single.constructor (mkSize 600 600)) = Some g' /\
    exists added : canvas.Canvas,
      g' = Single.mkGraph
             (Single._canvas (Single.constructor (mkSize 600 600)) ++ added)
             (Single._size (Single.constructor (mkSize 600 600)))
             (Single._transform (Single.constructor (mkSize 600 600)))
             (Single._xRange (Single.constructor (mkSize 600 600)))
             (Single._yRange (Single.constructor (mkSize 600 600))) /\
      existsb is_clear added = false.
Proof.
  eexists. split; [vm_compute; reflexivity|].
  apply (single_canvas_only_grows 14 readme (Single.constructor (mkSize 600 600))).
  vm_compute. reflexivity.
Defined.

(** X5.  Plotting again: on the dual-surface chart the second [plot]
    replaces what the first one showed, on the single-canvas chart the
    strokes of both stay, the second after the first, and what the canvas
    held before them stays too. *)
Theorem plotting_again
        (first second : list Point) (style1 style2 : PartialLineStyle)
        (gd : Dual.Graph) (gs : Single.Graph) :
  canvas.shown
    (Dual._foreground (Dual.plot second style2 (Dual.plot first style1 gd)))
  = plotted (Dual._transform gd)
            (spreadLine (mkLineStyle Dual.PLOT_LINE_COLOR 1) style2) second /\
  Dual._background (Dual.plot second style2 (Dual.plot first style1 gd))
  = Dual._background gd /\
  Single._canvas (Single.plot second style2 (Single.plot first style1 gs))
  = Single._canvas gs ++
    plotted (Single._transform gs)
            (spreadLine (mkLineStyle "#308c2c"%string 1) style1) first ++
    plotted (Single._transform gs)
            (spreadLine (mkLineStyle "#308c2c"%string 1) style2) second.
Proof.
  split.
  { rewrite (Dual_plot_state second).
    cbn [Dual._foreground Dual.with_foreground].
    rewrite shown_after_clear by apply segments_are_lines.
    rewrite Dual_plot_state. reflexivity. }
  split.
  { rewrite !Dual_plot_state. reflexivity. }
  rewrite (Single_plot_state second), Single_plot_state.
  cbn [Single._canvas Single.with_canvas Single._transform].
  rewrite <- app_assoc. reflexivity.
Qed.

(** ** Setters and drawing calls together *)

(** X6.  The two range setters commute, and a range set again replaces the
    earlier value without a trace: the chart after [xRange = a; yRange = b]
    is the chart after [yRange = b; xRange = a], and setting xRange (or
    yRange) twice leaves the chart that the second assignment alone would
    leave.  Both variants. *)
Theorem setters_commute_and_the_last_wins
        (a a' b b' : Range) (gd : Dual.Graph) (gs : Single.Graph) :
  Dual.set_xRange a (Dual.set_yRange b gd)
  = Dual.set_yRange b (Dual.set_xRange a gd) /\
  Dual.set_xRange a' (Dual.set_xRange a gd) = Dual.set_xRange a' gd /\
  Dual.set_yRange b' (Dual.set_yRange b gd) = Dual.set_yRange b' gd /\
  Single.set_xRange a (Single.set_yRange b gs)
  = Single.set_yRange b (Single.set_xRange a gs) /\
  Single.set_xRange a' (Single.set_xRange a gs) = Single.set_xRange a' gs /\
  Single.set_yRange b' (Single.set_yRange b gs) = Single.set_yRange b' gs.
Proof.
  repeat split.
Qed.

Lemma constructor_upToDate (sz : Size) : upToDate (Dual.constructor sz).
Proof. reflexivity. Qed.

Lemma operate_upToDate (fuel : nat) (op : Operation) (g g' : Dual.Graph) :
  operate fuel op g = Some g' -> upToDate g ->
  upToDate g' /\ Dual._size g' = Dual._size g.
Proof.
  destruct op as [r|r|k]; simpl; intros H Hg.
  - injection H as <-. split; reflexivity.
  - injection H as <-. split; reflexivity.
  - destruct (draw_sameMapping fuel k g g' H) as [Hx [Hy [Hs Ht]]].
    split; [|assumption].
    unfold upToDate. rewrite Hx, Hy, Hs, Ht. exact Hg.
Qed.

Lemma operateAll_upToDate (fuel : nat) (ops : list Operation) :
  forall g g' : Dual.Graph,
    operateAll fuel ops g = Some g' -> upToDate g ->
    upToDate g' /\ Dual._size g' = Dual._size g.
Proof.
  induction ops as [|op ops IH]; intros g g' H Hg; simpl in H.
  - injection H as <-. split; [assumption | reflexivity].
  - destruct (operate fuel op g) as [g1|] eqn:E; [|discriminate].
    destruct (operate_upToDate fuel op g g1 E Hg) as [Hg1 Hs1].
    destruct (IH g1 g' H Hg1) as [Hg' Hs'].
    split; [assumption | congruence].
Qed.

(** X7.  The transform is never stale: after any chain of range setters and
    drawing calls on a constructed chart, the size is the one given to the
    constructor and the transform matrix is the composition that the size
    and the ranges now stored call for, so every drawing call maps its
    points by the ranges set last. *)
Theorem transform_is_never_stale
        (fuel : nat) (ops : list Operation) (sz : Size) (g' : Dual.Graph) :
  operateAll fuel ops (Dual.constructor sz) = Some g' ->
  Dual._size g' = sz /\
  Dual._transform g'
  = run (recompute sz (Dual._xRange g') (Dual._yRange g'))
        geometry.transform.new.
Proof.
  intro H.
  destruct (operateAll_upToDate fuel ops (Dual.constructor sz) g' H
              (constructor_upToDate sz)) as [Hg' Hs'].
  split; [exact Hs'|].
  unfold upToDate in Hg'. rewrite Hs' in Hg'. exact Hg'.
Qed.

Lemma transform_is_never_stale_after_a_zoom :
  exists g' : Dual.Graph,
    operateAll 14
      [ Draws (DrawGrid 50 50 noLineStyle);
        SetXRange (mkRange (-100) 100);
        Draws (DrawXAxis noLineStyle);
        SetYRange (mkRange 10 50);
        Draws (Plot [mkPoint 0 10; mkPoint 50 40] noLineStyle) ]
      (Dual.constructor (mkSize 600 600))
    = Some g' /\
    Dual._size g' = mkSize 600 600 /\
    Dual._transform g'
    = run (recompute (mkSize 600 600) (Dual._xRange g') (Dual._yRange g'))
          geometry.transform.new.
Proof.
  eexists. split; [vm_compute; reflexivity|].
  apply (transform_is_never_stale 14
           [ Draws (DrawGrid 50 50 noLineStyle);
             SetXRange (mkRange (-100) 100);
             Draws (DrawXAxis noLineStyle);
             SetYRange (mkRange 10 50);
             Draws (Plot [mkPoint 0 10; mkPoint 50 40] noLineStyle) ]
           (mkSize 600 600)).
  vm_compute. reflexivity.
Defined.

(** ** Range objects shared with the caller *)

(** With no change made by the caller, the chart in the heap is the chart
    of the embedding by value. *)
Lemma Shared_constructor_read (sz : Size) (h : Shared.Heap) :
  Shared.read (Shared.constructor sz h) = Dual.constructor sz.
Proof. reflexivity. Qed.

Lemma Shared_assignX_upToDate (r : Shared.Ref) (w : Shared.World) :
  upToDate (Shared.read (Shared.assignX r w)).
Proof. reflexivity. Qed.

Lemma Shared_assignY_upToDate (r : Shared.Ref) (w : Shared.World) :
  upToDate (Shared.read (Shared.assignY r w)).
Proof. reflexivity. Qed.

Lemma Ref_eqb_refl (r : Shared.Ref) : Shared.Ref_eqb r r = true.
Proof. destruct r; simpl; [reflexivity | reflexivity | apply Nat.eqb_refl]. Qed.

(** X13.  The chart keeps the range object it is assigned, not a copy.
    When the caller changes the bounds of that object afterwards, the chart
    reads the new bounds (its drawing calls iterate and draw over them) but
    its transform is still the composition for the bounds the object had
    when it was assigned, so the new maximum is no longer drawn on the
    margin; the transform is rebuilt, from the bounds then stored, only by
    the next assignment of either range.  On a chart of 600 by 600 with
    [0, 100] assigned and then widened to [0, 200] the transform is stale. *)
Theorem chart_keeps_the_range_object_it_is_given
        (w : Shared.World) (n : nat) (v : Range) (r : Shared.Ref) (u : number)
        (lineStyle : PartialLineStyle) :
  Dual._xRange (Shared.read (Shared.assignX (Shared.object n) w))
  = Shared.heap w (Shared.object n) /\
  option_map (fun w' => Dual._background (Shared.read w'))
    (Shared.call 1 (DrawXAxis lineStyle)
       (Shared.mutate n v (Shared.assignX (Shared.object n) w)))
  = Some
      (Dual._background (Shared.read w) ++
       [ canvas.Line
           (transformPoint
              (Dual._transform (Shared.read (Shared.assignX (Shared.object n) w)))
              (mkPoint (min v)
                 (axisAt (Dual._yRange
                            (Shared.read
                               (Shared.mutate n v
                                  (Shared.assignX (Shared.object n) w)))))))
           (transformPoint
              (Dual._transform (Shared.read (Shared.assignX (Shared.object n) w)))
              (mkPoint (max v)
                 (axisAt (Dual._yRange
                            (Shared.read
                               (Shared.mutate n v
                                  (Shared.assignX (Shared.object n) w)))))))
           (spreadLine (mkLineStyle Dual.AXIS_LINE_COLOR 2) lineStyle) ]) /\
  Dual._xRange (Shared.read (Shared.mutate n v (Shared.assignX (Shared.object n) w)))
  = v /\
  Dual._transform
    (Shared.read (Shared.mutate n v (Shared.assignX (Shared.object n) w)))
  = run (recompute (Dual._size (Shared.read w))
                   (Shared.heap w (Shared.object n))
                   (Dual._yRange (Shared.read w)))
        geometry.transform.new /\
  x (transformPoint
       (Dual._transform
          (Shared.read (Shared.mutate n v (Shared.assignX (Shared.object n) w))))
       (mkPoint (max v) u))
    == 30 + (width (Dual._size (Shared.read w)) - 60)
            / (max (Shared.heap w (Shared.object n))
               - min (Shared.heap w (Shared.object n)))
            * (max v - min (Shared.heap w (Shared.object n))) /\
  upToDate
    (Shared.read
       (Shared.assignX r (Shared.mutate n v (Shared.assignX (Shared.object n) w)))) /\
  upToDate
    (Shared.read
       (Shared.assignY r (Shared.mutate n v (Shared.assignX (Shared.object n) w)))) /\
  ~ upToDate
      (Shared.read
         (Shared.mutate 0 (mkRange 0 200)
            (Shared.assignX (Shared.object 0)
               (Shared.constructor (mkSize 600 600) (fun _ => mkRange 0 100))))).
Proof.
  assert (Hread :
            Dual._xRange
              (Shared.read (Shared.mutate n v (Shared.assignX (Shared.object n) w)))
            = v).
  { unfold Shared.read, Shared.mutate, Shared.assignX, Shared.keep, Shared.write.
    cbn [Shared.heap Shared.chart Shared._xRange Dual._xRange].
    rewrite Ref_eqb_refl. reflexivity. }
  split; [reflexivity|].
  split.
  { unfold Shared.call. cbn [draw option_map].
    f_equal. unfold Dual.drawXAxis.
    rewrite Hread. reflexivity. }
  split; [exact Hread|].
  split; [reflexivity|].
  split.
  { apply (recompute_transformPoint (Dual._size (Shared.read w))
             (Shared.heap w (Shared.object n)) (Dual._yRange (Shared.read w))
             (Dual._transform (Shared.read w)) (mkPoint (max v) u)). }
  split; [apply Shared_assignX_upToDate|].
  split; [apply Shared_assignY_upToDate|].
  unfold upToDate. intro H. vm_compute in H. discriminate H.
Qed.
